(** * extract_logs.js: date extraction from a sorted log file

    A shallow embedding of the [LogExtractor] class of [src/extract_logs.js]
    and the properties of its byte-offset binary search, its sequential scan
    and the pipeline [extractLogs] that drives them.

    Conventions of the model.
    - The log file is a [string], one [ascii] per byte: the log format is
      ASCII, so the stream's utf8 decoding is the identity and byte offsets
      are character offsets.
    - JavaScript numbers are modelled by [Z]; every quantity is an integer
      of magnitude below 2^53, where double arithmetic is exact.
    - A promise is modelled by its final state, an [outcome]: settled with a
      value, settled with an error, or never settled.
    - The file system is a [world] threaded through every operation, together
      with the [fileSize] field of the extractor object and a trace of the
      I/O requests, in the order in which the program issues them.  Requests
      on an existing file succeed.
    - Console output is left out. *)

From Stdlib Require Import ZArith Ascii String List Lia Bool DecimalString.
From stdpp Require Import base gmap strings.
Import ListNotations.

Local Open Scope string_scope.
Local Open Scope Z_scope.

(** ** JavaScript string primitives *)

Module Js.

Definition LF : ascii := "010"%char.
Definition CR : ascii := "013"%char.

(** [s.indexOf(c)]: [None] stands for the result [-1]. *)
Fixpoint indexOf (c : ascii) (s : string) : option nat :=
  match s with
  | EmptyString => None
  | String a s' =>
      if Ascii.eqb a c then Some O
      else match indexOf c s' with
           | Some i => Some (S i)
           | None => None
           end
  end.

(** [s.slice(0, n)] and [s.substring(0, n)] for [0 <= n]. *)
Fixpoint take (n : nat) (s : string) : string :=
  match n, s with
  | S n', String a s' => String a (take n' s')
  | _, _ => EmptyString
  end.

(** The bytes of [s] from offset [n] on: what a read stream opened with
    [start: n] delivers. *)
Fixpoint drop (n : nat) (s : string) : string :=
  match n, s with
  | S n', String _ s' => drop n' s'
  | _, _ => s
  end.

(** [a === b] and [a < b] on strings (code-unit lexicographic order). *)
Definition eqb (a b : string) : bool := String.eqb a b.
Definition ltb (a b : string) : bool := String.ltb a b.

End Js.

(** ** Promises, errors and the I/O monad *)

Inductive error : Type :=
| InvalidDateFormat   (* Error('Invalid date format. Please use YYYY-MM-DD') *)
| SourceUnavailable   (* ENOENT from stat or from a read stream *)
| OutOfRange.         (* ERR_OUT_OF_RANGE: a read stream with a negative start *)

(** The final state of a promise.  [OutOfFuel] is not a state of the program:
    it marks a loop of the model cut short by its fuel, and
    [binarySearch_fuel] shows that it never arises. *)
Inductive outcome (A : Type) : Type :=
| Resolved (a : A)
| Rejected (e : error)
| Pending
| OutOfFuel.

Arguments Resolved {A} a.
Arguments Rejected {A} e.
Arguments Pending {A}.
Arguments OutOfFuel {A}.

Inductive io_event : Type :=
| EvExistsDir                          (* fs.existsSync(outputDir) *)
| EvMkdir                              (* fs.promises.mkdir(outputDir) *)
| EvOpenWrite (name : string)          (* fs.createWriteStream(outputPath) *)
| EvStat                               (* fs.promises.stat(logFilePath) *)
| EvRead (position : Z)                (* read stream of getDateAtPosition *)
| EvOpenRead (position : Z)            (* read stream of the scan *)
| EvWrite (name : string) (data : string)
| EvEnd (name : string).               (* outputStream.end() *)

Record world : Type := mkWorld {
  logFile : option string;        (* content of the log file, if it exists *)
  outputDir : bool;               (* does the output directory exist *)
  outputs : gmap string string;   (* files of the output directory, by name *)
  fileSize : Z;                   (* this.fileSize *)
  trace : list io_event           (* I/O requests, oldest first *)
}.

Definition IO (A : Type) : Type := world -> world * outcome A.

Definition ret {A} (a : A) : IO A := fun w => (w, Resolved a).

Definition throw {A} (e : error) : IO A := fun w => (w, Rejected e).

Definition bind {A B} (m : IO A) (k : A -> IO B) : IO B :=
  fun w =>
    match m w with
    | (w', Resolved a) => k a w'
    | (w', Rejected e) => (w', Rejected e)
    | (w', Pending) => (w', Pending)
    | (w', OutOfFuel) => (w', OutOfFuel)
    end.

(** [try { body } finally { cleanup }], for a cleanup that cannot fail. *)
Definition finally {A} (body : IO A) (cleanup : world -> world) : IO A :=
  fun w => let '(w', r) := body w in (cleanup w', r).

Declare Scope io_scope.
Delimit Scope io_scope with io.
Notation "x <- m ;; k" := (bind m (fun x => k))
  (at level 100, m at next level, right associativity) : io_scope.
Notation "m ;;; k" := (bind m (fun _ => k))
  (at level 100, right associativity) : io_scope.
Local Open Scope io_scope.

Definition emit (e : io_event) (w : world) : world :=
  mkWorld (logFile w) (outputDir w) (outputs w) (fileSize w) (trace w ++ [e]).

Definition set_outputDir (b : bool) (w : world) : world :=
  mkWorld (logFile w) b (outputs w) (fileSize w) (trace w).

Definition set_outputs (o : gmap string string) (w : world) : world :=
  mkWorld (logFile w) (outputDir w) o (fileSize w) (trace w).

Definition set_fileSize (n : Z) (w : world) : world :=
  mkWorld (logFile w) (outputDir w) (outputs w) n (trace w).

(** ** getDateAtPosition *)

(** The value the promise of [getDateAtPosition] settles with, as a function
    of the file: the stream delivers the bytes from [position] on; at the
    first newline the promise resolves with the first ten characters of what
    precedes it.  Without a newline no handler ever settles the promise. *)
Definition readDate (file : option string) (position : Z) : outcome string :=
  if position <? 0 then Rejected OutOfRange
  else match file with
       | None => Rejected SourceUnavailable
       | Some content =>
           let data := Js.drop (Z.to_nat position) content in
           match Js.indexOf Js.LF data with
           | Some newlineIndex =>
               let line := Js.take newlineIndex data in
               let date := Js.take 10 line in
               Resolved date
           | None => Pending
           end
       end.

Definition getDateAtPosition (position : Z) : IO string :=
  fun w => (emit (EvRead position) w, readDate (logFile w) position).

(** ** binarySearch *)

(** One turn of the main loop, after the date at [mid] has been read:
    the new [left], [right] and [startPosition]. *)
Definition search_step (targetDate : string) (mid left right startPosition : Z)
    (date : string) : Z * Z * Z :=
  if Js.eqb date targetDate then (left, mid - 1, mid)
  else if Js.ltb date targetDate then (mid + 1, right, startPosition)
  else (left, mid - 1, startPosition).

Definition midpoint (left right : Z) : Z := left + (right - left) / 2.

(** [while (left <= right) { ... }] *)
Fixpoint search_loop (targetDate : string) (fuel : nat)
    (left right startPosition : Z) : IO Z :=
  if left <=? right then
    match fuel with
    | O => fun w => (w, OutOfFuel)
    | S fuel' =>
        let mid := midpoint left right in
        date <- getDateAtPosition mid ;;
        let '(l, r, s) := search_step targetDate mid left right startPosition date in
        search_loop targetDate fuel' l r s
    end
  else ret startPosition.

(** [while (startPosition > 0) { ... }] *)
Fixpoint backtrack_loop (targetDate : string) (fuel : nat)
    (startPosition : Z) : IO Z :=
  if 0 <? startPosition then
    match fuel with
    | O => fun w => (w, OutOfFuel)
    | S fuel' =>
        prevDate <- getDateAtPosition (startPosition - 1) ;;
        if negb (Js.eqb prevDate targetDate) then ret startPosition
        else backtrack_loop targetDate fuel' (startPosition - 1)
    end
  else ret startPosition.

Definition binarySearch (targetDate : string) : IO Z :=
  fun w =>
    let left := 0 in
    let right := fileSize w - 1 in
    let startPosition := -1 in
    (startPosition <-
       search_loop targetDate (Z.to_nat (fileSize w)) left right startPosition ;;
     if negb (startPosition =? -1)
     then backtrack_loop targetDate (Z.to_nat startPosition) startPosition
     else ret startPosition) w.

(** ** initializeOutputDir *)

Definition initializeOutputDir : IO unit :=
  fun w =>
    let w1 := emit EvExistsDir w in
    if negb (outputDir w1)
    then (set_outputDir true (emit EvMkdir w1), Resolved tt)
    else (w1, Resolved tt).

(** ** extractLogs *)

Record summary : Type := mkSummary {
  totalLines : Z;
  matchedLines : Z;
  executionTime : Z
}.

Inductive char_class : Type :=
| Digit                 (* \d *)
| Lit (c : ascii).

Definition isDigit (c : ascii) : bool :=
  (48 <=? nat_of_ascii c)%nat && (nat_of_ascii c <=? 57)%nat.

Definition in_class (p : char_class) (c : ascii) : bool :=
  match p with
  | Digit => isDigit c
  | Lit a => Ascii.eqb c a
  end.

(** An anchored match [^p1 p2 ... pn$] of single-character classes. *)
Fixpoint matches (pat : list char_class) (s : string) : bool :=
  match pat, s with
  | [], EmptyString => true
  | p :: pat', String c s' => in_class p c && matches pat' s'
  | _, _ => false
  end.

(** /^\d{4}-\d{2}-\d{2}$/ *)
Definition date_regex : list char_class :=
  [Digit; Digit; Digit; Digit; Lit "-"; Digit; Digit; Lit "-"; Digit; Digit].

Definition validDate (targetDate : string) : bool :=
  matches date_regex targetDate.

(** `output_${targetDate}.txt`, the name of the output file inside the
    output directory. *)
Definition outputName (targetDate : string) : string :=
  "output_" +:+ targetDate +:+ ".txt".

(** [fs.createWriteStream(outputPath)]: the file is created, or truncated. *)
Definition createWriteStream (name : string) : IO string :=
  fun w =>
    let w1 := emit (EvOpenWrite name) w in
    (set_outputs (<[name := ""]> (outputs w1)) w1, Resolved name).

(** [fs.promises.stat(logFilePath)], of which only [size] is used. *)
Definition stat : IO Z :=
  fun w =>
    let w1 := emit EvStat w in
    match logFile w1 with
    | Some content => (w1, Resolved (Z.of_nat (String.length content)))
    | None => (w1, Rejected SourceUnavailable)
    end.

(** The lines the [readline] interface yields for an input: a line ends at
    "\n", at "\r\n" or at a lone "\r"; a last unterminated line is yielded
    when it is not empty. *)
Fixpoint rl_lines (cur : string) (s : string) : list string :=
  match s with
  | EmptyString => if Js.eqb cur "" then [] else [cur]
  | String c s' =>
      if Ascii.eqb c Js.LF then cur :: rl_lines "" s'
      else if Ascii.eqb c Js.CR then
        match s' with
        | String c' s'' =>
            if Ascii.eqb c' Js.LF then cur :: rl_lines "" s''
            else cur :: rl_lines "" s'
        | EmptyString => cur :: rl_lines "" s'
        end
      else rl_lines (cur +:+ String c "") s'
  end.

(** The read stream of the scan and the [readline] interface over it. *)
Definition readLines (startPosition : Z) : IO (list string) :=
  fun w =>
    let w1 := emit (EvOpenRead startPosition) w in
    if startPosition <? 0 then (w1, Rejected OutOfRange)
    else match logFile w1 with
         | Some content =>
             (w1, Resolved (rl_lines "" (Js.drop (Z.to_nat startPosition) content)))
         | None => (w1, Rejected SourceUnavailable)
         end.

(** [outputStream.write(data, callback)] *)
Definition write (name : string) (data : string) : IO unit :=
  fun w =>
    let w1 := emit (EvWrite name data) w in
    let old := default "" (outputs w1 !! name) in
    (set_outputs (<[name := old +:+ data]> (outputs w1)) w1, Resolved tt).

(** [for await (const line of rl) { ... }] with its counter. *)
Fixpoint scan_loop (targetDate : string) (name : string) (lines : list string)
    (matchedLines : Z) : IO Z :=
  match lines with
  | [] => ret matchedLines
  | line :: rest =>
      let lineDate := Js.take 10 line in
      if negb (Js.eqb lineDate targetDate) then ret matchedLines
      else
        write name (line +:+ String Js.LF "") ;;;
        scan_loop targetDate name rest (matchedLines + 1)
  end.

(** [startTime] and [endTime] are the two readings of [Date.now()]. *)
Definition extractLogs (targetDate : string) (startTime endTime : Z) : IO summary :=
  let matchedLines := 0 in
  if negb (validDate targetDate) then throw InvalidDateFormat
  else
    initializeOutputDir ;;;
    outputStream <- createWriteStream (outputName targetDate) ;;
    size <- stat ;;
    (fun w => (set_fileSize size w, Resolved tt)) ;;;
    startPosition <- binarySearch targetDate ;;
    if startPosition =? -1 then
      ret (mkSummary 0 0 (endTime - startTime))
    else
      lines <- readLines startPosition ;;
      matchedLines <-
        finally (scan_loop targetDate outputStream lines matchedLines)
                (emit (EvEnd outputStream)) ;;
      fun w => (w, Resolved (mkSummary (fileSize w) matchedLines (endTime - startTime))).

(** The extractor right after [new LogExtractor(path)], over a given disk. *)
Definition initial (file : option string) : world :=
  mkWorld file false ∅ 0 [].

(** ** Specification-side notions

    Functions that say what the results should be, written without the
    search: they are compared with the program, and are not part of it. *)

(** The lines of [content] whose date prefix is [targetDate], in file order:
    the independent linear scan. *)
Definition linesOfDate (targetDate : string) (content : string) : list string :=
  List.filter (fun line => Js.eqb (Js.take 10 line) targetDate) (rl_lines "" content).

(** The offset at which the line containing offset [pos] starts. *)
Fixpoint lineStart (s : string) (pos : nat) (cur start : nat) : nat :=
  match pos, s with
  | S pos', String c s' =>
      lineStart s' pos' (S cur) (if Ascii.eqb c Js.LF then S cur else start)
  | _, _ => start
  end.

(** The date prefix of the line containing offset [pos]. *)
Definition dateOfLineAt (content : string) (pos : nat) : string :=
  Js.take 10 (Js.drop (lineStart content pos 0 0) content).

(** The leading run of lines dated [targetDate]: what the scan emits. *)
Fixpoint matching (targetDate : string) (lines : list string) : list string :=
  match lines with
  | [] => []
  | line :: rest =>
      if Js.eqb (Js.take 10 line) targetDate
      then line :: matching targetDate rest
      else []
  end.

(** The bytes written for a list of lines: each followed by a newline. *)
Fixpoint joinLines (lines : list string) : string :=
  match lines with
  | [] => ""
  | line :: rest => (line +:+ String Js.LF "") +:+ joinLines rest
  end.

(** ** Worlds that differ by their trace *)

Definition extend (tr : list io_event) (w : world) : world :=
  mkWorld (logFile w) (outputDir w) (outputs w) (fileSize w) (trace w ++ tr).

Definition is_read (e : io_event) : Prop :=
  match e with
  | EvRead _ => True
  | _ => False
  end.

(** A computation that only issues date reads, and whose reads and outcome
    are determined by the log file and by [this.fileSize]. *)
Definition probes_only {A} (m : IO A) : Prop :=
  forall w, exists tr r,
    Forall is_read tr /\
    forall a, logFile a = logFile w -> fileSize a = fileSize w ->
              m a = (extend tr a, r).

(** The extractor over a log file [content], once [stat] has set the size. *)
Definition probing (content : string) : world :=
  mkWorld (Some content) true ∅ (Z.of_nat (String.length content)) [].

(** The outcome of the search on a log file. *)
Definition locate (targetDate : string) (content : string) : outcome Z :=
  snd (binarySearch targetDate (probing content)).

(** ** The pipeline over a log file *)

(** The events of the stages that precede the search. *)
Definition opening (dirExists : bool) (name : string) : list io_event :=
  ([EvExistsDir] ++ (if dirExists then [] else [EvMkdir])
   ++ [EvOpenWrite name; EvStat])%list.

(** The lines read from a found position on. *)
Definition scanned (targetDate content : string) (p : Z) : list string :=
  matching targetDate (rl_lines "" (Js.drop (Z.to_nat p) content)).

(** What [extractLogs] returns over a log file, from the outcome of the
    search on it. *)
Definition extraction (targetDate content : string) (elapsed : Z) : outcome summary :=
  match locate targetDate content with
  | Resolved p =>
      if p =? -1 then Resolved (mkSummary 0 0 elapsed)
      else Resolved (mkSummary (Z.of_nat (String.length content))
                               (Z.of_nat (length (scanned targetDate content p)))
                               elapsed)
  | Rejected e => Rejected e
  | Pending => Pending
  | OutOfFuel => OutOfFuel
  end.

(** What the output file holds afterwards. *)
Definition written (targetDate content : string) : string :=
  match locate targetDate content with
  | Resolved p =>
      if p =? -1 then "" else joinLines (scanned targetDate content p)
  | _ => ""
  end.

(** ** Concrete log files *)

Definition scenario : string :=
  joinLines ["2024-12-01 A"; "2024-12-02 B"; "2024-12-02 C"; "2024-12-03 D"].

(** One line; the search probes offsets 6, 9, 11 and 10, none a line start. *)
Definition oneLine : string := joinLines ["2024-12-01 A"].

(** Two lines, the midpoint of the file falling on the start of the second. *)
Definition centred : string := joinLines ["2024-12-01 A"; "2024-12-02 BC"].

(** A last line without its newline. *)
Definition unterminated : string :=
  joinLines ["2024-12-01 A"] +:+ "2024-12-02 B".

(** A line whose free-form content carries a date of its own. *)
Definition quoting : string := joinLines ["2024-12-01 2024-11-30 x"].

(** What the summary of a run says about matched lines. *)
Definition matched (r : outcome summary) : outcome Z :=
  match r with
  | Resolved s => Resolved (matchedLines s)
  | Rejected e => Rejected e
  | Pending => Pending
  | OutOfFuel => OutOfFuel
  end.

(** ** Shapes of text *)

(** A text without line break: neither "\n" nor "\r" occurs in it. *)
Definition clean (s : string) : Prop :=
  Js.indexOf Js.LF s = None /\ Js.indexOf Js.CR s = None.

(** A file whose last byte, if it has one, is a newline. *)
Fixpoint terminated (s : string) : bool :=
  match s with
  | EmptyString => true
  | String c s' =>
      match s' with
      | EmptyString => Ascii.eqb c Js.LF
      | String _ _ => terminated s'
      end
  end.

(** A computation that leaves the log file and every output file but
    [name] as they were. *)
Definition frames (name : string) {A} (m : IO A) : Prop :=
  forall w,
    logFile (fst (m w)) = logFile w /\
    forall k, k <> name -> outputs (fst (m w)) !! k = outputs w !! k.

(** ** generateSampleData

    The function draws from [Math.random] and reads the calendar through
    [Date]; both belong to the host.  The host gives, for the k-th call of
    [Math.random()], a number [random k], of which [Math.floor(Math.random()
    * n)] is taken to be [random k mod n] (any of 0 .. n-1), and for a day
    offset the text [currentDate.toISOString().split('T')[0]] of that day. *)

Record host : Type := mkHost {
  random : nat -> nat;
  isoDate : nat -> string
}.

(** [Math.floor(Math.random() * n)] at the k-th call of [Math.random]. *)
Definition floorRandom (h : host) (k n : nat) : nat := (random h k mod n)%nat.

(** [n.toString()] for a natural number. *)
Definition toString (n : nat) : string := NilZero.string_of_uint (Nat.to_uint n).

(** [s.padStart(2, '0')] *)
Definition padStart2 (s : string) : string :=
  match String.length s with
  | O => "00"
  | S O => "0" +:+ s
  | _ => s
  end.

(** [array[i]] in a template literal: out of range it reads "undefined". *)
Definition arrayAt (array : list string) (i : nat) : string :=
  nth i array "undefined".

Definition logLevels : list string := ["INFO"; "WARN"; "ERROR"; "DEBUG"].

Definition messages : list string :=
  ["User logged in"; "Failed to connect to the database";
   "Disk space running low"; "Cache cleared"; "Request processed successfully"].

(** The name under which the trace shows the log file. *)
Definition logFilePath : string := "test_logs.log".

(** The entry of the given day and rank, without its newline.  The entry of
    rank [entry] of day [day] makes calls [5 * (day * entriesPerDay + entry)]
    and the four after it of [Math.random]. *)
Definition logLine (h : host) (entriesPerDay day entry : nat) : string :=
  let k := (5 * (day * entriesPerDay + entry))%nat in
  let hour := floorRandom h k 24 in
  let minute := floorRandom h (k + 1) 60 in
  let second := floorRandom h (k + 2) 60 in
  let logLevel := arrayAt logLevels (floorRandom h (k + 3) (length logLevels)) in
  let message := arrayAt messages (floorRandom h (k + 4) (length messages)) in
  let timestamp :=
    (isoDate h day +:+ " ") +:+
    (padStart2 (toString hour) +:+ ":") +:+
    (padStart2 (toString minute) +:+ ":") +:+
    padStart2 (toString second) in
  timestamp +:+ " " +:+ logLevel +:+ " " +:+ message.

Definition set_logFile (file : option string) (w : world) : world :=
  mkWorld file (outputDir w) (outputs w) (fileSize w) (trace w).

(** [fs.createWriteStream(this.logFilePath)]: created, or truncated. *)
Definition createLogStream : IO unit :=
  fun w => (set_logFile (Some "") (emit (EvOpenWrite logFilePath) w), Resolved tt).

(** [writeStream.write(logEntry)] *)
Definition writeLog (data : string) : IO unit :=
  fun w =>
    let w1 := emit (EvWrite logFilePath data) w in
    (set_logFile (Some (default "" (logFile w1) +:+ data)) w1, Resolved tt).

(** [for (let i = first; ...; i++) body], for [count] turns. *)
Fixpoint for_loop (count first : nat) (body : nat -> IO unit) : IO unit :=
  match count with
  | O => ret tt
  | S count' => body first ;;; for_loop count' (S first) body
  end.

Definition generateSampleData (h : host) (numberOfDays entriesPerDay : nat)
    : IO unit :=
  createLogStream ;;;
  for_loop numberOfDays 0 (fun day =>
    for_loop entriesPerDay 0 (fun entry =>
      let logEntry := logLine h entriesPerDay day entry +:+ String Js.LF "" in
      writeLog logEntry)) ;;;
  fun w => (emit (EvEnd logFilePath) w, Resolved tt).

(** The lines of the generated file, day after day. *)
Definition sampleLines (h : host) (numberOfDays entriesPerDay : nat)
    : list string :=
  flat_map (fun day => map (logLine h entriesPerDay day) (seq 0 entriesPerDay))
           (seq 0 numberOfDays).

(** The world after the given lines have been written to the log stream. *)
Definition logged (lines : list string) (w : world) : world :=
  mkWorld (Some (default "" (logFile w) +:+ joinLines lines))
          (outputDir w) (outputs w) (fileSize w)
          (trace w ++ map (fun line => EvWrite logFilePath (line +:+ String Js.LF ""))
                          lines).

(** ** main *)

(** How a run of the program ends: [process.exit(code)], the return of
    [main] (the process then ends with status 0), or an extraction that
    never settles.  [Cut] is [OutOfFuel] passed on. *)
Inductive ending : Type :=
| Exit (code : Z)
| Returned
| NeverSettles
| Cut.

(** [argument] is [process.argv[2]]: [None] when it is absent.  The test
    [fs.existsSync(logFilePath)] reads the world and adds nothing to the
    trace; [new LogExtractor] sets [fileSize] to 0. *)
Definition main (h : host) (argument : option string) (startTime endTime : Z)
    : world -> world * ending :=
  fun w =>
    match argument with
    | None => (w, Exit 1)
    | Some targetDate =>
        if Js.eqb targetDate "" then (w, Exit 1)
        else
          let extractor := set_fileSize 0 w in
          let '(w1, generated) :=
            match logFile extractor with
            | None => generateSampleData h 10 1000 extractor
            | Some _ => (extractor, Resolved tt)
            end in
          match generated with
          | Resolved _ =>
              match extractLogs targetDate startTime endTime w1 with
              | (w2, Resolved result) => (w2, Returned)
              | (w2, Rejected error) => (w2, Exit 1)
              | (w2, Pending) => (w2, NeverSettles)
              | (w2, OutOfFuel) => (w2, Cut)
              end
          | Rejected error => (w1, Exit 1)
          | Pending => (w1, NeverSettles)
          | OutOfFuel => (w1, Cut)
          end
    end.

(** A host for examples: December 2024, one date a day. *)
Definition december : host :=
  mkHost (fun k => (7 * k + 3)%nat)
         (fun day => "2024-12-" +:+ padStart2 (toString (S day))).

(** One line, found by the search at offset 0. *)
Definition atStart : string := joinLines ["1999-12-31 zzzzzz"].

(** ** ASCII text

    On bytes below 128 the stream's utf8 decoding changes nothing: a byte is
    a character and an offset in bytes is an offset in characters. *)
Definition isAscii (c : ascii) : bool := (nat_of_ascii c <? 128)%nat.

Fixpoint ascii_only (s : string) : bool :=
  match s with
  | EmptyString => true
  | String c s' => isAscii c && ascii_only s'
  end.

(** * Lemmas *)

Ltac read_date :=
  unfold bind at 1; unfold getDateAtPosition at 1.

(** ** Frame lemmas *)

Lemma extend_nil w : extend [] w = w.
Proof. destruct w; unfold extend; simpl. now rewrite app_nil_r. Qed.

Lemma extend_extend t1 t2 w : extend t2 (extend t1 w) = extend (t1 ++ t2) w.
Proof. unfold extend; simpl. now rewrite app_assoc. Qed.

Lemma emit_extend e w : emit e w = extend [e] w.
Proof. reflexivity. Qed.

Lemma probes_only_ret {A} (a : A) : probes_only (ret a).
Proof.
  intros w. exists [], (Resolved a). split; [constructor|].
  intros a0 _ _. unfold ret. now rewrite extend_nil.
Qed.

Lemma probes_only_stuck {A} (r : outcome A) : probes_only (fun w => (w, r)).
Proof.
  intros w. exists [], r. split; [constructor|].
  intros a0 _ _. now rewrite extend_nil.
Qed.

Lemma probes_only_bind {A B} (m : IO A) (k : A -> IO B) :
  probes_only m -> (forall x, probes_only (k x)) -> probes_only (bind m k).
Proof.
  intros Hm Hk w.
  destruct (Hm w) as (tr & r & Htr & Hrun).
  destruct r as [x | e | | ].
  - destruct (Hk x (extend tr w)) as (tr2 & r2 & Htr2 & Hrun2).
    exists (tr ++ tr2)%list, r2. split; [now apply Forall_app|].
    intros a Hl Hf. unfold bind. rewrite (Hrun a Hl Hf).
    rewrite (Hrun2 (extend tr a)); simpl; auto.
    now rewrite extend_extend.
  - exists tr, (Rejected e). split; [assumption|].
    intros a Hl Hf. unfold bind. now rewrite (Hrun a Hl Hf).
  - exists tr, Pending. split; [assumption|].
    intros a Hl Hf. unfold bind. now rewrite (Hrun a Hl Hf).
  - exists tr, OutOfFuel. split; [assumption|].
    intros a Hl Hf. unfold bind. now rewrite (Hrun a Hl Hf).
Qed.

Lemma probes_only_getDateAtPosition position :
  probes_only (getDateAtPosition position).
Proof.
  intros w. exists [EvRead position], (readDate (logFile w) position).
  split; [repeat constructor|].
  intros a Hl _. unfold getDateAtPosition. now rewrite Hl.
Qed.

Lemma probes_only_search_loop targetDate fuel :
  forall left right startPosition,
    probes_only (search_loop targetDate fuel left right startPosition).
Proof.
  induction fuel as [|fuel IH]; intros left right startPosition; simpl;
    destruct (left <=? right); try apply probes_only_ret.
  - apply probes_only_stuck.
  - apply probes_only_bind; [apply probes_only_getDateAtPosition|].
    intros date.
    destruct (search_step targetDate (midpoint left right) left right
                startPosition date) as [[l r] s].
    apply IH.
Qed.

Lemma probes_only_backtrack_loop targetDate fuel :
  forall startPosition,
    probes_only (backtrack_loop targetDate fuel startPosition).
Proof.
  induction fuel as [|fuel IH]; intros startPosition; simpl;
    destruct (0 <? startPosition); try apply probes_only_ret.
  - apply probes_only_stuck.
  - apply probes_only_bind; [apply probes_only_getDateAtPosition|].
    intros prevDate.
    destruct (negb (Js.eqb prevDate targetDate)); [apply probes_only_ret|apply IH].
Qed.

Lemma probes_only_binarySearch targetDate : probes_only (binarySearch targetDate).
Proof.
  intros w.
  pose (m := (startPosition <-
                search_loop targetDate (Z.to_nat (fileSize w)) 0 (fileSize w - 1) (-1) ;;
              if negb (startPosition =? -1)
              then backtrack_loop targetDate (Z.to_nat startPosition) startPosition
              else ret startPosition)).
  assert (Hm : probes_only m).
  { apply probes_only_bind; [apply probes_only_search_loop|].
    intros s. destruct (negb (s =? -1));
      [apply probes_only_backtrack_loop|apply probes_only_ret]. }
  destruct (Hm w) as (tr & r & Htr & Hrun).
  exists tr, r. split; [assumption|].
  intros a Hl Hf. unfold binarySearch. rewrite Hf. now apply Hrun.
Qed.

(** On a world whose log file is [content] and whose [fileSize] is its size,
    the search issues date reads only and ends as [locate] says. *)
Lemma binarySearch_locate targetDate content w :
  logFile w = Some content ->
  fileSize w = Z.of_nat (String.length content) ->
  exists probes,
    Forall is_read probes /\
    binarySearch targetDate w = (extend probes w, locate targetDate content).
Proof.
  intros Hl Hf.
  destruct (probes_only_binarySearch targetDate (probing content))
    as (tr & r & Htr & Hrun).
  exists tr. split; [assumption|].
  unfold locate. rewrite (Hrun (probing content) eq_refl eq_refl). simpl.
  now apply Hrun.
Qed.

Lemma probes_only_logFile {A} (m : IO A) w :
  probes_only m -> logFile (fst (m w)) = logFile w.
Proof.
  intros H. destruct (H w) as (tr & r & _ & Hrun).
  now rewrite (Hrun w eq_refl eq_refl).
Qed.

(** ** The main loop of the search *)

Lemma midpoint_bounds left right :
  left <= right -> left <= midpoint left right <= right.
Proof.
  intros H. unfold midpoint.
  assert (0 <= (right - left) / 2) by (apply Z.div_pos; lia).
  assert ((right - left) / 2 <= right - left)
    by (apply Z.div_le_upper_bound; lia).
  lia.
Qed.

(** Each turn moves [left] up or [right] down, within the old interval. *)
Lemma search_step_shrinks targetDate left right startPosition date l r s :
  left <= right ->
  search_step targetDate (midpoint left right) left right startPosition date
    = (l, r, s) ->
  (left < l <= right + 1 /\ r = right \/ l = left /\ left - 1 <= r < right) /\
  (s = startPosition \/ left <= s <= right).
Proof.
  intros Hle Hs. pose proof (midpoint_bounds left right Hle) as Hm.
  unfold search_step in Hs.
  destruct (Js.eqb date targetDate); [|destruct (Js.ltb date targetDate)];
    injection Hs as <- <- <-; lia.
Qed.

Lemma search_loop_range targetDate fuel :
  forall left right startPosition w w' p,
    search_loop targetDate fuel left right startPosition w = (w', Resolved p) ->
    p = startPosition \/ left <= p <= right.
Proof.
  induction fuel as [|fuel IH]; intros left right s w w' p; simpl;
    destruct (left <=? right) eqn:E.
  - discriminate.
  - unfold ret. intros [= _ <-]. now left.
  - apply Z.leb_le in E. read_date.
    destruct (readDate (logFile w) (midpoint left right)) as [d| | |];
      try discriminate.
    destruct (search_step targetDate (midpoint left right) left right s d)
      as [[l r] s'] eqn:Es.
    intros H. apply IH in H.
    apply search_step_shrinks in Es; [|assumption]. lia.
  - unfold ret. intros [= _ <-]. now left.
Qed.

(** With fuel for the width of the interval the loop is never cut short. *)
Lemma search_loop_fuel targetDate fuel :
  forall left right startPosition w,
    (Z.to_nat (right - left + 1) <= fuel)%nat ->
    snd (search_loop targetDate fuel left right startPosition w) <> OutOfFuel.
Proof.
  induction fuel as [|fuel IH]; intros left right s w Hf; simpl;
    destruct (left <=? right) eqn:E; try (unfold ret; simpl; discriminate).
  - apply Z.leb_le in E. lia.
  - apply Z.leb_le in E. read_date.
    destruct (readDate (logFile w) (midpoint left right)) as [d| | |] eqn:Er;
      try (simpl; discriminate).
    + destruct (search_step targetDate (midpoint left right) left right s d)
        as [[l r] s'] eqn:Es.
      apply IH. apply search_step_shrinks in Es; [|assumption]. lia.
    + exfalso. unfold readDate in Er.
      destruct (midpoint left right <? 0); [discriminate|].
      destruct (logFile w) as [content|]; [|discriminate].
      destruct (Js.indexOf _ _); discriminate.
Qed.

(** When every read in the interval settles with a value, so does the loop. *)
Lemma search_loop_total targetDate fuel :
  forall left right startPosition w,
    (Z.to_nat (right - left + 1) <= fuel)%nat ->
    (forall pos, left <= pos <= right ->
                 exists d, readDate (logFile w) pos = Resolved d) ->
    exists w' p,
      search_loop targetDate fuel left right startPosition w = (w', Resolved p).
Proof.
  induction fuel as [|fuel IH]; intros left right s w Hf Hread; simpl;
    destruct (left <=? right) eqn:E; try (unfold ret; eauto).
  - apply Z.leb_le in E. lia.
  - apply Z.leb_le in E. read_date.
    destruct (Hread (midpoint left right) (midpoint_bounds _ _ E)) as [d ->].
    destruct (search_step targetDate (midpoint left right) left right s d)
      as [[l r] s'] eqn:Es.
    apply search_step_shrinks in Es; [|assumption].
    apply IH; [lia|].
    intros pos Hpos. apply Hread. lia.
Qed.

(** ** The backtrack loop *)

Lemma backtrack_loop_fuel targetDate fuel :
  forall startPosition w,
    (Z.to_nat startPosition <= fuel)%nat ->
    snd (backtrack_loop targetDate fuel startPosition w) <> OutOfFuel.
Proof.
  induction fuel as [|fuel IH]; intros s w Hf; simpl;
    destruct (0 <? s) eqn:E; try (unfold ret; simpl; discriminate).
  - apply Z.ltb_lt in E. lia.
  - apply Z.ltb_lt in E. read_date.
    destruct (readDate (logFile w) (s - 1)) as [d| | |] eqn:Er;
      try (simpl; discriminate).
    + destruct (negb (Js.eqb d targetDate)); [unfold ret; simpl; discriminate|].
      apply IH. lia.
    + exfalso. unfold readDate in Er.
      destruct (s - 1 <? 0); [discriminate|].
      destruct (logFile w) as [content|]; [|discriminate].
      destruct (Js.indexOf _ _); discriminate.
Qed.

Lemma backtrack_loop_total targetDate fuel :
  forall startPosition w,
    (Z.to_nat startPosition <= fuel)%nat ->
    (forall pos, 0 <= pos < startPosition ->
                 exists d, readDate (logFile w) pos = Resolved d) ->
    exists w' p,
      backtrack_loop targetDate fuel startPosition w = (w', Resolved p).
Proof.
  induction fuel as [|fuel IH]; intros s w Hf Hread; simpl;
    destruct (0 <? s) eqn:E; try (unfold ret; eauto).
  - apply Z.ltb_lt in E. lia.
  - apply Z.ltb_lt in E. read_date.
    destruct (Hread (s - 1)) as [d ->]; [lia|].
    destruct (negb (Js.eqb d targetDate)); [unfold ret; eauto|].
    apply IH; [lia|].
    intros pos Hpos. apply Hread. lia.
Qed.

(** The loop stops at offset 0 or below a read that differs from the target. *)
Lemma backtrack_loop_stop targetDate fuel :
  forall startPosition w w' p,
    0 <= startPosition ->
    backtrack_loop targetDate fuel startPosition w = (w', Resolved p) ->
    p <= startPosition /\
    (p = 0 \/
     (0 < p /\ exists d, readDate (logFile w) (p - 1) = Resolved d /\ d <> targetDate)).
Proof.
  induction fuel as [|fuel IH]; intros s w w' p Hs; simpl;
    destruct (0 <? s) eqn:E.
  - discriminate.
  - apply Z.ltb_ge in E. unfold ret. intros [= _ <-]. split; [lia|left; lia].
  - apply Z.ltb_lt in E. read_date.
    destruct (readDate (logFile w) (s - 1)) as [d| | |] eqn:Er; try discriminate.
    destruct (Js.eqb d targetDate) eqn:Ed; simpl.
    + intros H. apply IH in H; [|lia]. split; [lia|apply H].
    + unfold ret. intros [= _ <-]. split; [lia|]. right. split; [assumption|].
      exists d. split; [assumption|].
      now apply String.eqb_neq.
  - apply Z.ltb_ge in E. unfold ret. intros [= _ <-]. split; [lia|left; lia].
Qed.

(** ** binarySearch as a whole *)

(** The fuel [binarySearch] gives its loops is enough: the search is never
    cut short by the model. *)
Lemma binarySearch_fuel targetDate w :
  snd (binarySearch targetDate w) <> OutOfFuel.
Proof.
  unfold binarySearch, bind.
  destruct (search_loop targetDate (Z.to_nat (fileSize w)) 0 (fileSize w - 1) (-1) w)
    as [w1 r1] eqn:E1.
  destruct r1 as [s| | |]; try (simpl; discriminate).
  - destruct (negb (s =? -1)); [|unfold ret; simpl; discriminate].
    apply backtrack_loop_fuel. lia.
  - exfalso.
    apply (search_loop_fuel targetDate (Z.to_nat (fileSize w)) 0 (fileSize w - 1) (-1) w);
      [lia|].
    now rewrite E1.
Qed.

(** A returned position is the sentinel [-1], or an offset of the file at
    which the backtrack loop stopped. *)
Lemma binarySearch_found targetDate w w' p :
  binarySearch targetDate w = (w', Resolved p) ->
  p = -1 \/
  (0 <= p < fileSize w /\
   (p = 0 \/ exists d, readDate (logFile w) (p - 1) = Resolved d /\ d <> targetDate)).
Proof.
  unfold binarySearch, bind.
  destruct (search_loop targetDate (Z.to_nat (fileSize w)) 0 (fileSize w - 1) (-1) w)
    as [w1 r1] eqn:E1.
  destruct r1 as [s| | |]; try discriminate.
  pose proof (search_loop_range _ _ _ _ _ _ _ _ E1) as Hrange.
  assert (Hlog : logFile w1 = logFile w).
  { change w1 with (fst (w1, @Resolved Z s)). rewrite <- E1.
    apply probes_only_logFile, probes_only_search_loop. }
  destruct (s =? -1) eqn:Es; simpl.
  - unfold ret. intros [= _ <-]. left. now apply Z.eqb_eq.
  - apply Z.eqb_neq in Es. intros Hb. right.
    apply backtrack_loop_stop in Hb; [|lia].
    rewrite Hlog in Hb. destruct Hb as [Hp Hb].
    split; [|destruct Hb as [Hb|[_ Hb]]; auto].
    destruct Hb as [Hb|[Hb _]]; lia.
Qed.

(** ** The sequential scan *)

Lemma append_empty_r (s : string) : s +:+ "" = s.
Proof.
  induction s as [|c s IH]; [reflexivity|].
  change (String c (s +:+ "") = String c s). now rewrite IH.
Qed.

Lemma append_assoc (a b c : string) : (a +:+ b) +:+ c = a +:+ (b +:+ c).
Proof.
  induction a as [|x a IH]; [reflexivity|].
  change (String x ((a +:+ b) +:+ c) = String x (a +:+ (b +:+ c))).
  now rewrite IH.
Qed.

(** The scan appends the leading run of matching lines to the output file,
    counts them, and leaves the rest of the disk alone. *)
Lemma scan_loop_spec targetDate name lines :
  forall matched w c,
    outputs w !! name = Some c ->
    exists w',
      scan_loop targetDate name lines matched w
        = (w', Resolved (matched + Z.of_nat (length (matching targetDate lines)))) /\
      outputs w' !! name = Some (c +:+ joinLines (matching targetDate lines)) /\
      logFile w' = logFile w /\ fileSize w' = fileSize w /\
      outputDir w' = outputDir w /\
      exists tr, trace w' = (trace w ++ tr)%list.
Proof.
  induction lines as [|line rest IH]; intros matched w c Hc;
    cbn [scan_loop matching].
  - exists w. unfold ret. cbn [joinLines length].
    rewrite append_empty_r, Z.add_0_r.
    repeat split; auto. exists []. now rewrite app_nil_r.
  - destruct (Js.eqb (Js.take 10 line) targetDate); cbn [negb joinLines length].
    + unfold bind at 1. unfold write at 1. cbn [outputs emit].
      rewrite Hc. cbn [default].
      match goal with
      | |- context [scan_loop _ _ _ _ ?w1] =>
          destruct (IH (matched + 1) w1 (c +:+ (line +:+ String Js.LF "")))
            as (w' & Hrun & Hout & Hlog & Hsize & Hdir & tr & Htr)
      end.
      { simpl. apply lookup_insert_eq. }
      exists w'. rewrite Hrun, Hout, Hlog, Hsize, Hdir, Htr. simpl.
      rewrite append_assoc.
      repeat split; auto.
      * do 2 f_equal. lia.
      * rewrite <- app_assoc. eexists. reflexivity.
    + exists w. unfold ret. rewrite append_empty_r, Z.add_0_r.
      repeat split; auto. exists []. now rewrite app_nil_r.
Qed.

(** ** The pipeline, stage by stage *)

Lemma locate_range targetDate content p :
  locate targetDate content = Resolved p ->
  p = -1 \/ 0 <= p < Z.of_nat (String.length content).
Proof.
  unfold locate. intros H.
  destruct (binarySearch targetDate (probing content)) as [w' r] eqn:E.
  simpl in H. subst r.
  apply binarySearch_found in E. simpl in E. tauto.
Qed.

Lemma extractLogs_spec targetDate startTime endTime w content :
  validDate targetDate = true ->
  logFile w = Some content ->
  exists w' probes tail,
    extractLogs targetDate startTime endTime w
      = (w', extraction targetDate content (endTime - startTime)) /\
    logFile w' = Some content /\
    outputDir w' = true /\
    outputs w' !! outputName targetDate = Some (written targetDate content) /\
    Forall is_read probes /\
    trace w' = (trace w ++ opening (outputDir w) (outputName targetDate)
                        ++ probes ++ tail)%list /\
    (locate targetDate content = Resolved (-1) -> tail = []).
Proof.
  intros Hvalid Hlog.
  destruct w as [lf od outs fs tr0]. simpl in Hlog. subst lf.
  unfold extractLogs. rewrite Hvalid. simpl negb. cbv iota.
  unfold bind at 1. unfold initializeOutputDir.
  assert (Hopen : forall w1 : world,
    logFile w1 = Some content -> outputDir w1 = true ->
    exists w' probes tail,
      (outputStream <- createWriteStream (outputName targetDate) ;;
       size <- stat ;;
       (fun w => (set_fileSize size w, Resolved tt)) ;;;
       startPosition <- binarySearch targetDate ;;
       if startPosition =? -1 then
         ret (mkSummary 0 0 (endTime - startTime))
       else
         lines <- readLines startPosition ;;
         matchedLines <-
           finally (scan_loop targetDate outputStream lines 0)
                   (emit (EvEnd outputStream)) ;;
         fun w => (w, Resolved (mkSummary (fileSize w) matchedLines
                                          (endTime - startTime)))) w1
        = (w', extraction targetDate content (endTime - startTime)) /\
      logFile w' = Some content /\
      outputDir w' = true /\
      outputs w' !! outputName targetDate = Some (written targetDate content) /\
      Forall is_read probes /\
      trace w' = (trace w1 ++ [EvOpenWrite (outputName targetDate); EvStat]
                          ++ probes ++ tail)%list /\
      (locate targetDate content = Resolved (-1) -> tail = [])).
  { intros [lf1 od1 outs1 fs1 tr1]; simpl; intros -> ->.
    unfold bind at 1. unfold createWriteStream. simpl.
    unfold bind at 1. unfold stat. simpl.
    unfold bind at 1. simpl.
    unfold bind at 1.
    match goal with
    | |- context [binarySearch _ ?w2] =>
        destruct (binarySearch_locate targetDate content w2 eq_refl eq_refl)
          as (probes & Hprobes & Hsearch)
    end.
    rewrite Hsearch. unfold extraction, written.
    destruct (locate targetDate content) as [p| e | | ] eqn:Hloc.
    - destruct (p =? -1) eqn:Hp.
      + exists (extend probes
                  (mkWorld (Some content) true
                     (<[outputName targetDate := ""]> outs1)
                     (Z.of_nat (String.length content))
                     ((tr1 ++ [EvOpenWrite (outputName targetDate)]) ++ [EvStat]))),
          probes, [].
        unfold ret, extend. simpl.
        repeat split; auto.
        * apply lookup_insert_eq.
        * rewrite app_nil_r, <- !app_assoc. reflexivity.
      + apply Z.eqb_neq in Hp.
        destruct (locate_range _ _ _ Hloc) as [|Hrange]; [contradiction|].
        unfold bind at 1. unfold readLines. simpl.
        destruct (p <? 0) eqn:Hneg; [apply Z.ltb_lt in Hneg; lia|].
        unfold bind at 1. unfold finally.
        match goal with
        | |- context [scan_loop ?t ?n ?l ?m ?w3] =>
            destruct (scan_loop_spec t n l m w3 "")
              as (w' & Hrun & Hout & Hlog & Hsize & Hdir & wr & Htr)
        end.
        { simpl. apply lookup_insert_eq. }
        rewrite Hrun. simpl in *.
        exists (emit (EvEnd (outputName targetDate)) w'),
          probes, ([EvOpenRead p] ++ wr ++ [EvEnd (outputName targetDate)])%list.
        simpl. rewrite Hsize, Hout, Hlog, Hdir, Htr.
        repeat split; auto.
        * rewrite <- !app_assoc. reflexivity.
        * intros [= ?]. contradiction.
    - eexists _, probes, []. repeat split; simpl; auto.
      + apply lookup_insert_eq.
      + rewrite app_nil_r, <- !app_assoc. reflexivity.
    - eexists _, probes, []. repeat split; simpl; auto.
      + apply lookup_insert_eq.
      + rewrite app_nil_r, <- !app_assoc. reflexivity.
    - eexists _, probes, []. repeat split; simpl; auto.
      + apply lookup_insert_eq.
      + rewrite app_nil_r, <- !app_assoc. reflexivity. }
  simpl. destruct od; simpl.
  - match goal with
    | |- context [bind _ _ ?w1] =>
        destruct (Hopen w1 eq_refl eq_refl)
          as (w' & probes & tail & Hrun & H1 & H2 & H3 & H4 & H5 & H6)
    end.
    exists w', probes, tail. rewrite Hrun, H5. simpl.
    repeat split; auto. now rewrite <- !app_assoc.
  - match goal with
    | |- context [bind _ _ ?w1] =>
        destruct (Hopen w1 eq_refl eq_refl)
          as (w' & probes & tail & Hrun & H1 & H2 & H3 & H4 & H5 & H6)
    end.
    exists w', probes, tail. rewrite Hrun, H5. simpl.
    repeat split; auto. now rewrite <- !app_assoc.
Qed.

(** When the log file is missing, [stat] rejects: the output file has been
    created by then and stays empty. *)
Lemma extractLogs_missing targetDate startTime endTime w :
  validDate targetDate = true ->
  logFile w = None ->
  exists w',
    extractLogs targetDate startTime endTime w = (w', Rejected SourceUnavailable) /\
    logFile w' = None /\
    outputDir w' = true /\
    outputs w' !! outputName targetDate = Some "".
Proof.
  intros Hvalid Hlog.
  destruct w as [lf od outs fs tr0]. simpl in Hlog. subst lf.
  unfold extractLogs. rewrite Hvalid. simpl negb. cbv iota.
  unfold bind, initializeOutputDir, createWriteStream, stat. simpl.
  destruct od; simpl; eexists; repeat split; simpl; auto; apply lookup_insert_eq.
Qed.

(** A malformed date is rejected at once: the world, trace included, is
    untouched. *)
Lemma extractLogs_invalid targetDate startTime endTime w :
  validDate targetDate = false ->
  extractLogs targetDate startTime endTime w = (w, Rejected InvalidDateFormat).
Proof. intros H. unfold extractLogs. now rewrite H. Qed.

(** The strings the date check accepts: ten characters, digits but for the
    hyphens at offsets 4 and 7. *)
Lemma validDate_shape s :
  validDate s = true <->
  exists y1 y2 y3 y4 m1 m2 d1 d2,
    s = String y1 (String y2 (String y3 (String y4 (String "-"
          (String m1 (String m2 (String "-" (String d1 (String d2 ""))))))))) /\
    forallb isDigit [y1; y2; y3; y4; m1; m2; d1; d2] = true.
Proof.
  unfold validDate, date_regex. split.
  - intros H.
    do 10 (destruct s as [|? s]; [discriminate H|];
           cbn [matches in_class] in H;
           apply andb_true_iff in H; destruct H as [? H]).
    destruct s; [|discriminate H].
    repeat match goal with
           | E : Ascii.eqb _ _ = true |- _ => apply Ascii.eqb_eq in E; subst
           end.
    do 8 eexists. split; [reflexivity|].
    cbn [forallb].
    repeat match goal with
           | E : isDigit _ = true |- _ => rewrite E; clear E
           end.
    reflexivity.
  - intros (y1 & y2 & y3 & y4 & m1 & m2 & d1 & d2 & -> & H).
    cbn [forallb] in H.
    repeat (apply andb_true_iff in H; destruct H as [? H]).
    cbn [matches in_class].
    repeat match goal with
           | E : isDigit _ = true |- _ => rewrite E; clear E
           end.
    reflexivity.
Qed.

Lemma locate_fuel targetDate content : locate targetDate content <> OutOfFuel.
Proof. apply binarySearch_fuel. Qed.

(** The search can only record a candidate at an offset whose read equals the
    target. *)
Lemma search_loop_absent targetDate fuel :
  forall left right w w' p,
    (forall pos, readDate (logFile w) pos <> Resolved targetDate) ->
    search_loop targetDate fuel left right (-1) w = (w', Resolved p) ->
    p = -1.
Proof.
  induction fuel as [|fuel IH]; intros left right w w' p Habs; simpl;
    destruct (left <=? right) eqn:E; try discriminate;
    try (unfold ret; now intros [= _ <-]).
  read_date.
  destruct (readDate (logFile w) (midpoint left right)) as [d| | |] eqn:Er;
    try discriminate.
  unfold search_step.
  destruct (Js.eqb d targetDate) eqn:Ed.
  - apply String.eqb_eq in Ed. subst d. now apply Habs in Er.
  - destruct (Js.ltb d targetDate); apply IH; exact Habs.
Qed.

(** A read from which no newline follows never settles. *)
Lemma readDate_no_newline content position :
  0 <= position ->
  Js.indexOf Js.LF (Js.drop (Z.to_nat position) content) = None ->
  readDate (Some content) position = Pending.
Proof.
  intros Hpos Hnl. unfold readDate.
  destruct (position <? 0) eqn:E; [apply Z.ltb_lt in E; lia|].
  now rewrite Hnl.
Qed.

(** * The claims *)

(** C1.  Claimed: on a sorted log file and a date present in it, search then
    scan return exactly the lines of that date, and on the four-line scenario
    with target 2024-12-02 the lines "2024-12-02 B" and "2024-12-02 C".
    On that very scenario the program does otherwise: the linear scan finds
    the two lines, but the search probes offsets 25, 38, 45, 48, 46 and 47,
    reads no date equal to the target there, and returns -1; the extraction
    reports no matched line and leaves the output file empty. *)
Theorem scenario_finds_nothing :
  linesOfDate "2024-12-02" scenario = ["2024-12-02 B"; "2024-12-02 C"] /\
  locate "2024-12-02" scenario = Resolved (-1) /\
  snd (extractLogs "2024-12-02" 0 1 (initial (Some scenario)))
    = Resolved (mkSummary 0 0 1) /\
  outputs (fst (extractLogs "2024-12-02" 0 1 (initial (Some scenario))))
    !! "output_2024-12-02.txt" = Some "" /\
  trace (fst (extractLogs "2024-12-02" 0 1 (initial (Some scenario))))
    = [EvExistsDir; EvMkdir; EvOpenWrite "output_2024-12-02.txt"; EvStat;
       EvRead 25; EvRead 38; EvRead 45; EvRead 48; EvRead 46; EvRead 47].
Proof. repeat split; vm_compute; reflexivity. Qed.

(** C2.  Claimed: at an offset strictly inside a line, the date read is the
    date prefix of the line containing the offset.  The read starts at the
    offset and never looks back: at offset 3 of the line "2024-12-01 A" it
    yields "4-12-01 A", the rest of the line, while the line's date prefix
    is "2024-12-01". *)
Theorem readDate_mid_line :
  readDate (Some oneLine) 3 = Resolved "4-12-01 A" /\
  dateOfLineAt oneLine 3 = "2024-12-01" /\
  readDate (Some oneLine) 3 <> Resolved (dateOfLineAt oneLine 3).
Proof. repeat split; vm_compute; [reflexivity..|discriminate]. Qed.

(** C3.  Claimed: a read from which no newline follows fails with a
    TruncatedLine error, which the search absorbs so that it still returns.
    In the program such a read never settles: nothing listens for the end of
    the stream.  On a file whose last line lacks its newline the search
    probes offset 12 and then 18, inside that last line, and neither the
    search nor the extraction ever returns. *)
Theorem unterminated_never_settles :
  readDate (Some unterminated) 18 = Pending /\
  locate "2024-12-02" unterminated = Pending /\
  snd (extractLogs "2024-12-02" 0 1 (initial (Some unterminated))) = Pending /\
  trace (fst (extractLogs "2024-12-02" 0 1 (initial (Some unterminated))))
    = [EvExistsDir; EvMkdir; EvOpenWrite "output_2024-12-02.txt"; EvStat;
       EvRead 12; EvRead 18].
Proof. repeat split; vm_compute; reflexivity. Qed.

(** C4, as stated: every malformed date, "2024-13-40" among them, is
    rejected with InvalidDateFormat before any I/O.  The check is the shape
    check of the regular expression and nothing more: "2024-13-40" has the
    shape, passes, and the extraction goes on to the disk. *)
Lemma month_13_day_40_accepted :
  ~ (forall w startTime endTime,
       extractLogs "2024-13-40" startTime endTime w
         = (w, Rejected InvalidDateFormat)).
Proof.
  intros H. specialize (H (initial (Some scenario)) 0 1).
  vm_compute in H. discriminate H.
Qed.

(** C4, amended.  Every target date that fails the shape check
    /^\d{4}-\d{2}-\d{2}$/ (four digits, a hyphen, two digits, a hyphen, two
    digits, and nothing else), "20241201" and the empty string among them,
    is rejected with InvalidDateFormat before any I/O: the world is returned
    as it was, with no event added to its trace. *)
Theorem malformed_date_rejected :
  validDate "20241201" = false /\
  validDate "" = false /\
  forall targetDate startTime endTime w,
    validDate targetDate = false ->
    extractLogs targetDate startTime endTime w = (w, Rejected InvalidDateFormat).
Proof.
  split; [reflexivity|]. split; [reflexivity|].
  intros targetDate startTime endTime w H. now apply extractLogs_invalid.
Qed.

Lemma malformed_date_rejected_witness :
  validDate "20241201" = false /\
  extractLogs "20241201" 0 1 (initial (Some scenario))
    = (initial (Some scenario), Rejected InvalidDateFormat).
Proof.
  split; [reflexivity|].
  apply (proj2 (proj2 malformed_date_rejected)). reflexivity.
Defined.

(** C5.  Claimed: on an empty file the search returns NotFound, and for a
    well-formed date that no line of a sorted file carries, the search
    returns NotFound and nothing is matched or written.  The first part
    holds.  The second fails where the date occurs inside the free-form
    content of a line: no line of "2024-12-01 2024-11-30 x" is dated
    2024-11-30, yet the first probe, at offset 11, reads "2024-11-30"; the
    search returns 11, and the scan from there writes "2024-11-30 x" and
    counts one matched line. *)
Theorem quoted_date_is_matched :
  (forall targetDate, locate targetDate "" = Resolved (-1)) /\
  linesOfDate "2024-11-30" quoting = [] /\
  readDate (Some quoting) 11 = Resolved "2024-11-30" /\
  locate "2024-11-30" quoting = Resolved 11 /\
  snd (extractLogs "2024-11-30" 0 1 (initial (Some quoting)))
    = Resolved (mkSummary 24 1 1) /\
  outputs (fst (extractLogs "2024-11-30" 0 1 (initial (Some quoting))))
    !! "output_2024-11-30.txt" = Some (joinLines ["2024-11-30 x"]).
Proof. split; [reflexivity|]. repeat split; vm_compute; reflexivity. Qed.

(** C6.  The search follows the stated steps.  When the date read at the
    midpoint equals the target, the loop goes on with [right = mid - 1] and
    the midpoint as candidate.  In the backtrack loop, a read at
    [candidate - 1] equal to the target moves the candidate down by one and
    goes on; a read that differs stops the loop at the candidate; and at a
    candidate of 0 the loop stops at once, with no read.  Hence a position
    returned by the search, other than the sentinel -1, is 0, or is above 0
    and such that the date read just below it differs from the target. *)
Theorem binarySearch_steps targetDate w :
  (forall fuel left right startPosition,
     left <= right ->
     readDate (logFile w) (midpoint left right) = Resolved targetDate ->
     search_loop targetDate (S fuel) left right startPosition w
       = search_loop targetDate fuel left (midpoint left right - 1)
           (midpoint left right) (emit (EvRead (midpoint left right)) w)) /\
  (forall fuel startPosition,
     0 < startPosition ->
     readDate (logFile w) (startPosition - 1) = Resolved targetDate ->
     backtrack_loop targetDate (S fuel) startPosition w
       = backtrack_loop targetDate fuel (startPosition - 1)
           (emit (EvRead (startPosition - 1)) w)) /\
  (forall fuel startPosition d,
     0 < startPosition ->
     readDate (logFile w) (startPosition - 1) = Resolved d ->
     d <> targetDate ->
     backtrack_loop targetDate (S fuel) startPosition w
       = (emit (EvRead (startPosition - 1)) w, Resolved startPosition)) /\
  (forall fuel startPosition,
     startPosition <= 0 ->
     backtrack_loop targetDate fuel startPosition w
       = (w, Resolved startPosition)) /\
  (forall p,
     snd (binarySearch targetDate w) = Resolved p ->
     p <> -1 ->
     p = 0 \/
     (0 < p /\
      exists d, readDate (logFile w) (p - 1) = Resolved d /\ d <> targetDate)).
Proof.
  split; [|split; [|split; [|split]]].
  - intros fuel left right s Hle Hread.
    cbn [search_loop]. apply Z.leb_le in Hle. rewrite Hle.
    read_date. rewrite Hread. unfold search_step, Js.eqb.
    now rewrite String.eqb_refl.
  - intros fuel s Hs Hread.
    cbn [backtrack_loop]. apply Z.ltb_lt in Hs. rewrite Hs.
    read_date. rewrite Hread. unfold Js.eqb.
    now rewrite String.eqb_refl.
  - intros fuel s d Hs Hread Hd.
    cbn [backtrack_loop]. apply Z.ltb_lt in Hs. rewrite Hs.
    read_date. rewrite Hread. unfold Js.eqb.
    apply String.eqb_neq in Hd. now rewrite Hd.
  - intros fuel s Hs. apply Z.ltb_ge in Hs.
    destruct fuel; cbn [backtrack_loop]; now rewrite Hs.
  - intros p Hp Hfound.
    destruct (binarySearch targetDate w) as [w' r] eqn:E.
    simpl in Hp. subst r.
    apply binarySearch_found in E.
    destruct E as [E|(Hrange & [E|E])]; [contradiction|now left|].
    destruct (Z.eq_dec p 0) as [->|Hne]; [now left|].
    right. split; [lia|exact E].
Qed.

Lemma binarySearch_steps_witness :
  (0 <= 26 /\
   readDate (logFile (probing centred)) (midpoint 0 26) = Resolved "2024-12-02" /\
   search_loop "2024-12-02" 5 0 26 (-1) (probing centred)
     = search_loop "2024-12-02" 4 0 (midpoint 0 26 - 1) (midpoint 0 26)
         (emit (EvRead (midpoint 0 26)) (probing centred))) /\
  (0 < 14 /\
   readDate (logFile (probing centred)) (14 - 1) = Resolved "2024-12-02" /\
   backtrack_loop "2024-12-02" 14 14 (probing centred)
     = backtrack_loop "2024-12-02" 13 (14 - 1)
         (emit (EvRead (14 - 1)) (probing centred))) /\
  (0 < 13 /\
   readDate (logFile (probing centred)) (13 - 1) = Resolved "" /\
   "" <> "2024-12-02" /\
   backtrack_loop "2024-12-02" 13 13 (probing centred)
     = (emit (EvRead (13 - 1)) (probing centred), Resolved 13)) /\
  (0 <= 0 /\
   backtrack_loop "1999-12-31" 0 0 (probing atStart)
     = (probing atStart, Resolved 0)) /\
  (snd (binarySearch "2024-12-02" (probing centred)) = Resolved 13 /\
   13 <> -1 /\
   (13 = 0 \/
    (0 < 13 /\
     exists d, readDate (logFile (probing centred)) (13 - 1) = Resolved d /\
               d <> "2024-12-02"))) /\
  (snd (binarySearch "1999-12-31" (probing atStart)) = Resolved 0 /\
   0 <> -1 /\
   (0 = 0 \/
    (0 < 0 /\
     exists d, readDate (logFile (probing atStart)) (0 - 1) = Resolved d /\
               d <> "1999-12-31"))).
Proof.
  destruct (binarySearch_steps "2024-12-02" (probing centred))
    as (Hequal & Hback & Hstop & _ & Hfound).
  destruct (binarySearch_steps "1999-12-31" (probing atStart))
    as (_ & _ & _ & Hzero & Hfirst).
  split; [|split; [|split; [|split; [|split]]]].
  - split; [lia|]. split; [vm_compute; reflexivity|].
    apply (Hequal 4%nat 0 26 (-1)); [lia|vm_compute; reflexivity].
  - split; [lia|]. split; [vm_compute; reflexivity|].
    apply (Hback 13%nat 14); [lia|vm_compute; reflexivity].
  - split; [lia|]. split; [vm_compute; reflexivity|]. split; [discriminate|].
    apply (Hstop 12%nat 13 ""); [lia|vm_compute; reflexivity|discriminate].
  - split; [lia|]. apply (Hzero 0%nat 0). lia.
  - split; [vm_compute; reflexivity|]. split; [lia|].
    apply (Hfound 13); [vm_compute; reflexivity|lia].
  - split; [vm_compute; reflexivity|]. split; [lia|].
    apply (Hfirst 0); [vm_compute; reflexivity|lia].
Defined.

(** C7, as stated: the [totalLines] of the summary of a successful extraction
    is the size of the log file in bytes.  An extraction that finds nothing
    is successful too (it returns its summary, and the caller reports
    completion), and its summary carries [totalLines: 0]: on the 13-byte
    one-line file, with a date that is not there, [totalLines] is 0. *)
Lemma not_found_totalLines_zero :
  ~ (forall targetDate startTime endTime w content s,
       logFile w = Some content ->
       snd (extractLogs targetDate startTime endTime w) = Resolved s ->
       totalLines s = Z.of_nat (String.length content)).
Proof.
  intros H.
  specialize (H "2024-12-05" 0 1 (initial (Some oneLine)) oneLine
                (mkSummary 0 0 1) eq_refl).
  vm_compute in H. specialize (H eq_refl). discriminate H.
Qed.

(** C7, amended.  In the summary of an extraction whose search found a
    position, [totalLines] is the size of the log file in bytes, as [stat]
    gave it, not a number of lines; in the summary of an extraction whose
    search found nothing, [totalLines] is 0. *)
Theorem totalLines_is_byte_size targetDate startTime endTime w content s :
  logFile w = Some content ->
  snd (extractLogs targetDate startTime endTime w) = Resolved s ->
  exists p,
    locate targetDate content = Resolved p /\
    totalLines s = if p =? -1 then 0 else Z.of_nat (String.length content).
Proof.
  intros Hlog Hrun.
  destruct (validDate targetDate) eqn:Hvalid.
  - destruct (extractLogs_spec targetDate startTime endTime w content Hvalid Hlog)
      as (w' & probes & tail & Hspec & _).
    rewrite Hspec in Hrun. simpl in Hrun. unfold extraction in Hrun.
    destruct (locate targetDate content) as [p| | |]; try discriminate.
    exists p. split; [reflexivity|].
    destruct (p =? -1); injection Hrun as <-; reflexivity.
  - rewrite extractLogs_invalid in Hrun by assumption. discriminate.
Qed.

Lemma totalLines_is_byte_size_witness :
  logFile (initial (Some centred)) = Some centred /\
  snd (extractLogs "2024-12-02" 0 1 (initial (Some centred)))
    = Resolved (mkSummary 27 1 1) /\
  exists p,
    locate "2024-12-02" centred = Resolved p /\
    totalLines (mkSummary 27 1 1)
      = if p =? -1 then 0 else Z.of_nat (String.length centred).
Proof.
  split; [reflexivity|]. split; [vm_compute; reflexivity|].
  apply (totalLines_is_byte_size "2024-12-02" 0 1 (initial (Some centred)));
    [reflexivity|vm_compute; reflexivity].
Defined.

(** C8.  The output of an extraction is determined by the content of the log
    file and the target date.  A run leaves the log file as it was; and for a
    well-formed date, two runs over the same log content, whatever else
    differs (the clock, the output directory and what it held, the trace: in
    particular a second run started where a first one ended), leave the same
    bytes in the output file and report the same number of matched lines. *)
Theorem extractLogs_deterministic targetDate t0 t1 t2 t3 w a :
  validDate targetDate = true ->
  logFile a = logFile w ->
  logFile (fst (extractLogs targetDate t0 t1 w)) = logFile w /\
  outputs (fst (extractLogs targetDate t2 t3 a)) !! outputName targetDate
    = outputs (fst (extractLogs targetDate t0 t1 w)) !! outputName targetDate /\
  matched (snd (extractLogs targetDate t2 t3 a))
    = matched (snd (extractLogs targetDate t0 t1 w)).
Proof.
  intros Hvalid Hsame.
  destruct (logFile w) as [content|] eqn:Hlog.
  - destruct (extractLogs_spec targetDate t0 t1 w content Hvalid Hlog)
      as (w' & ? & ? & -> & Hl & _ & Hout & _).
    destruct (extractLogs_spec targetDate t2 t3 a content Hvalid Hsame)
      as (a' & ? & ? & -> & _ & _ & Hout' & _).
    simpl. rewrite Hout, Hout'. repeat split; [assumption|].
    unfold extraction.
    destruct (locate targetDate content) as [p| | |]; try reflexivity.
    destruct (p =? -1); reflexivity.
  - destruct (extractLogs_missing targetDate t0 t1 w Hvalid Hlog)
      as (w' & -> & Hl & _ & Hout).
    destruct (extractLogs_missing targetDate t2 t3 a Hvalid Hsame)
      as (a' & -> & _ & _ & Hout').
    simpl. rewrite Hout, Hout'. auto.
Qed.

Lemma extractLogs_deterministic_witness :
  validDate "2024-12-02" = true /\
  logFile (fst (extractLogs "2024-12-02" 0 1 (initial (Some centred))))
    = logFile (initial (Some centred)) /\
  outputs (fst (extractLogs "2024-12-02" 5 9
                  (fst (extractLogs "2024-12-02" 0 1 (initial (Some centred))))))
    !! outputName "2024-12-02"
    = outputs (fst (extractLogs "2024-12-02" 0 1 (initial (Some centred))))
        !! outputName "2024-12-02" /\
  matched (snd (extractLogs "2024-12-02" 5 9
                  (fst (extractLogs "2024-12-02" 0 1 (initial (Some centred))))))
    = matched (snd (extractLogs "2024-12-02" 0 1 (initial (Some centred)))).
Proof.
  split; [reflexivity|]. split; [vm_compute; reflexivity|].
  apply (extractLogs_deterministic "2024-12-02" 0 1 5 9
           (initial (Some centred))
           (fst (extractLogs "2024-12-02" 0 1 (initial (Some centred)))));
    [reflexivity|vm_compute; reflexivity].
Defined.

(** C9.  For a well-formed date that the search does not find, the
    extraction has, before the first read of the search, checked the output
    directory, created it when it was missing, opened [output_<date>.txt]
    and taken the size of the log file; after the reads of the search it
    returns, and the output file is on disk, empty. *)
Theorem not_found_leaves_empty_output targetDate startTime endTime w content :
  validDate targetDate = true ->
  logFile w = Some content ->
  locate targetDate content = Resolved (-1) ->
  exists w' probes,
    extractLogs targetDate startTime endTime w
      = (w', Resolved (mkSummary 0 0 (endTime - startTime))) /\
    outputDir w' = true /\
    outputs w' !! outputName targetDate = Some "" /\
    Forall is_read probes /\
    trace w' = (trace w
                ++ [EvExistsDir] ++ (if outputDir w then [] else [EvMkdir])
                ++ [EvOpenWrite (outputName targetDate); EvStat]
                ++ probes)%list.
Proof.
  intros Hvalid Hlog Hloc.
  destruct (extractLogs_spec targetDate startTime endTime w content Hvalid Hlog)
    as (w' & probes & tail & Hrun & _ & Hdir & Hout & Hprobes & Htrace & Htail).
  exists w', probes.
  unfold extraction in Hrun. unfold written in Hout.
  rewrite Hloc in Hrun, Hout. simpl in Hrun, Hout.
  rewrite (Htail Hloc), app_nil_r in Htrace.
  repeat split; try assumption.
  rewrite Htrace. unfold opening. now rewrite <- !app_assoc.
Qed.

Lemma not_found_leaves_empty_output_witness :
  validDate "2024-12-05" = true /\
  logFile (initial (Some oneLine)) = Some oneLine /\
  locate "2024-12-05" oneLine = Resolved (-1) /\
  exists w' probes,
    extractLogs "2024-12-05" 0 1 (initial (Some oneLine))
      = (w', Resolved (mkSummary 0 0 (1 - 0))) /\
    outputDir w' = true /\
    outputs w' !! outputName "2024-12-05" = Some "" /\
    Forall is_read probes /\
    trace w' = (trace (initial (Some oneLine))
                ++ [EvExistsDir]
                ++ (if outputDir (initial (Some oneLine)) then [] else [EvMkdir])
                ++ [EvOpenWrite (outputName "2024-12-05"); EvStat]
                ++ probes)%list.
Proof.
  split; [reflexivity|]. split; [reflexivity|]. split; [vm_compute; reflexivity|].
  apply (not_found_leaves_empty_output "2024-12-05" 0 1 (initial (Some oneLine)) oneLine);
    [reflexivity|reflexivity|vm_compute; reflexivity].
Defined.

(** C10.  When every date read at an offset of the file returns a value, the
    search returns a position, for every file size from 0 on.  Each turn of
    the main loop moves [left] up with [right] fixed, or [right] down with
    [left] fixed; each turn of the backtrack loop that goes on does so from
    [candidate - 1], which is below the candidate and not below 0. *)
Theorem binarySearch_terminates targetDate w :
  0 <= fileSize w ->
  (forall pos, 0 <= pos < fileSize w ->
               exists d, readDate (logFile w) pos = Resolved d) ->
  (exists w' p, binarySearch targetDate w = (w', Resolved p)) /\
  (forall left right startPosition date l r s,
     left <= right ->
     search_step targetDate (midpoint left right) left right startPosition date
       = (l, r, s) ->
     (left < l /\ r = right) \/ (l = left /\ r < right)) /\
  (forall fuel startPosition v,
     0 < startPosition ->
     backtrack_loop targetDate (S fuel) startPosition v
       = (prevDate <- getDateAtPosition (startPosition - 1) ;;
          if negb (Js.eqb prevDate targetDate) then ret startPosition
          else backtrack_loop targetDate fuel (startPosition - 1)) v /\
     0 <= startPosition - 1 < startPosition).
Proof.
  intros Hsize Hread. split; [|split].
  - unfold binarySearch.
    destruct (search_loop_total targetDate (Z.to_nat (fileSize w))
                0 (fileSize w - 1) (-1) w) as (w1 & s & Hloop).
    { lia. }
    { intros pos Hpos. apply Hread. lia. }
    unfold bind at 1. rewrite Hloop.
    pose proof (search_loop_range _ _ _ _ _ _ _ _ Hloop) as Hrange.
    assert (Hlog : logFile w1 = logFile w).
    { change w1 with (fst (w1, @Resolved Z s)). rewrite <- Hloop.
      apply probes_only_logFile, probes_only_search_loop. }
    destruct (s =? -1) eqn:Es; simpl.
    + unfold ret. eauto.
    + apply Z.eqb_neq in Es.
      apply backtrack_loop_total; [lia|].
      intros pos Hpos. rewrite Hlog. apply Hread. lia.
  - intros left right s date l r s' Hle Hstep.
    apply search_step_shrinks in Hstep; [|assumption]. lia.
  - intros fuel s v Hs. split; [|lia].
    cbn [backtrack_loop]. apply Z.ltb_lt in Hs. now rewrite Hs.
Qed.

Lemma binarySearch_terminates_witness :
  0 <= fileSize (probing oneLine) /\
  (forall pos, 0 <= pos < fileSize (probing oneLine) ->
               exists d, readDate (logFile (probing oneLine)) pos = Resolved d) /\
  exists w' p, binarySearch "2024-12-01" (probing oneLine) = (w', Resolved p).
Proof.
  assert (Hread : forall pos, 0 <= pos < fileSize (probing oneLine) ->
            exists d, readDate (logFile (probing oneLine)) pos = Resolved d).
  { intros pos Hpos. change (fileSize (probing oneLine)) with 13 in Hpos.
    assert (Hcases : pos = 0 \/ pos = 1 \/ pos = 2 \/ pos = 3 \/ pos = 4 \/
                     pos = 5 \/ pos = 6 \/ pos = 7 \/ pos = 8 \/ pos = 9 \/
                     pos = 10 \/ pos = 11 \/ pos = 12) by lia.
    repeat (destruct Hcases as [-> | Hcases]; [eexists; vm_compute; reflexivity|]).
    subst pos. eexists; vm_compute; reflexivity. }
  split; [vm_compute; discriminate|]. split; [exact Hread|].
  apply (binarySearch_terminates "2024-12-01" (probing oneLine));
    [vm_compute; discriminate|exact Hread].
Defined.

(** * Further properties *)

(** ** Strings *)

Lemma append_cons c (a b : string) : String c a +:+ b = String c (a +:+ b).
Proof. reflexivity. Qed.

Lemma drop_app_length (a b : string) : Js.drop (String.length a) (a +:+ b) = b.
Proof. induction a as [|c a IH]; [now destruct b|exact IH]. Qed.

Lemma take_app_length (a b : string) : Js.take (String.length a) (a +:+ b) = a.
Proof.
  induction a as [|c a IH]; [now destruct b|].
  rewrite append_cons. cbn [String.length Js.take]. now rewrite IH.
Qed.

Lemma indexOf_app c (a b : string) :
  Js.indexOf c a = None ->
  Js.indexOf c (a +:+ String c b) = Some (String.length a).
Proof.
  induction a as [|x a IH]; intros H.
  - change (Js.indexOf c (String c b) = Some 0%nat).
    cbn [Js.indexOf]. now rewrite Ascii.eqb_refl.
  - rewrite append_cons. cbn [Js.indexOf String.length] in *.
    destruct (Ascii.eqb x c); [discriminate|].
    destruct (Js.indexOf c a); [discriminate|].
    now rewrite IH.
Qed.

Lemma length_take n (s : string) :
  String.length (Js.take n s) = Nat.min n (String.length s).
Proof.
  revert s. induction n as [|n IH]; intros [|c s]; cbn; auto.
Qed.

Lemma take_take n m (s : string) :
  Js.take n (Js.take m s) = Js.take (Nat.min n m) s.
Proof.
  revert m s. induction n as [|n IH]; intros [|m] [|c s]; cbn; auto.
  now rewrite IH.
Qed.

Lemma take_length_take n (s : string) :
  Js.take (String.length (Js.take n s)) s = Js.take n s.
Proof.
  revert s. induction n as [|n IH]; intros [|c s]; cbn; auto.
  now rewrite IH.
Qed.

Lemma indexOf_take_none c n (s : string) :
  Js.indexOf c s = None -> Js.indexOf c (Js.take n s) = None.
Proof.
  revert s. induction n as [|n IH]; intros [|x s]; cbn; auto.
  destruct (Ascii.eqb x c); [discriminate|].
  destruct (Js.indexOf c s) eqn:E; [discriminate|].
  intros _. now rewrite IH.
Qed.

Lemma indexOf_take c i (s : string) :
  Js.indexOf c s = Some i -> Js.indexOf c (Js.take i s) = None.
Proof.
  revert i. induction s as [|x s IH]; intros i; cbn; [discriminate|].
  destruct (Ascii.eqb x c) eqn:E.
  - intros [= <-]. reflexivity.
  - destruct (Js.indexOf c s) as [j|]; [|discriminate].
    intros [= <-]. cbn. rewrite E. now rewrite (IH j).
Qed.

Lemma drop_S n (s : string) :
  Js.drop (S n) s = Js.drop 1 (Js.drop n s).
Proof.
  revert s. induction n as [|n IH]; intros [|c s]; try reflexivity.
  cbn [Js.drop] in *. rewrite <- IH. now destruct s.
Qed.

(** ** getDateAtPosition, further *)

(** Read at the first byte of a line of ASCII text, the date is the line's
    first ten bytes.  (The stream starts at the line, and the bytes of the
    line, all below 128, are decoded as they are, up to the newline.) *)
Theorem readDate_line_start (before line after : string) :
  ascii_only line = true ->
  Js.indexOf Js.LF line = None ->
  readDate (Some (before +:+ line +:+ String Js.LF after))
           (Z.of_nat (String.length before))
    = Resolved (Js.take 10 line).
Proof.
  intros _ Hline. unfold readDate.
  destruct (Z.of_nat (String.length before) <? 0) eqn:E;
    [apply Z.ltb_lt in E; lia|].
  rewrite Nat2Z.id, drop_app_length, indexOf_app by assumption.
  now rewrite take_app_length.
Qed.

Lemma readDate_line_start_witness :
  ascii_only "2024-12-02 BC" = true /\
  Js.indexOf Js.LF "2024-12-02 BC" = None /\
  readDate (Some (joinLines ["2024-12-01 A"] +:+ "2024-12-02 BC"
                  +:+ String Js.LF ""))
           (Z.of_nat (String.length (joinLines ["2024-12-01 A"])))
    = Resolved (Js.take 10 "2024-12-02 BC").
Proof.
  split; [reflexivity|]. split; [reflexivity|].
  apply (readDate_line_start (joinLines ["2024-12-01 A"]) "2024-12-02 BC" "");
    reflexivity.
Defined.

(** In an ASCII file, a date that is read is text of the file: the bytes
    found at the offset, ten at most, and none of them a newline. *)
Theorem readDate_value content position d :
  ascii_only content = true ->
  readDate (Some content) position = Resolved d ->
  0 <= position /\
  (String.length d <= 10)%nat /\
  Js.indexOf Js.LF d = None /\
  d = Js.take (String.length d) (Js.drop (Z.to_nat position) content).
Proof.
  intros _. unfold readDate. cbv zeta.
  destruct (position <? 0) eqn:E; [discriminate|].
  apply Z.ltb_ge in E.
  destruct (Js.indexOf Js.LF (Js.drop (Z.to_nat position) content))
    as [i|] eqn:Hi; [|discriminate].
  intros H.
  assert (Hd : Js.take 10 (Js.take i (Js.drop (Z.to_nat position) content)) = d)
    by exact (f_equal (fun r => match r with Resolved x => x | _ => d end) H).
  clear H. subst d. split; [assumption|]. split; [|split].
  - rewrite length_take. lia.
  - apply indexOf_take_none. now apply indexOf_take.
  - rewrite take_take. now rewrite take_length_take.
Qed.

Lemma readDate_value_witness :
  ascii_only oneLine = true /\
  readDate (Some oneLine) 3 = Resolved "4-12-01 A" /\
  0 <= 3 /\
  (String.length "4-12-01 A" <= 10)%nat /\
  Js.indexOf Js.LF "4-12-01 A" = None /\
  "4-12-01 A"
    = Js.take (String.length "4-12-01 A") (Js.drop (Z.to_nat 3) oneLine).
Proof.
  split; [reflexivity|]. split; [vm_compute; reflexivity|].
  apply (readDate_value oneLine 3 "4-12-01 A");
    [reflexivity|vm_compute; reflexivity].
Defined.

Lemma terminated_indexOf (s : string) n :
  terminated s = true ->
  (n < String.length s)%nat ->
  Js.indexOf Js.LF (Js.drop n s) <> None.
Proof.
  revert n. induction s as [|c s IH]; intros n Hterm Hn; [cbn in Hn; lia|].
  destruct n as [|n].
  - cbn [Js.drop Js.indexOf]. destruct (Ascii.eqb c Js.LF) eqn:Ec; [discriminate|].
    destruct s as [|c' s]; [cbn in Hterm; congruence|].
    specialize (IH 0%nat Hterm). cbn [Js.drop] in IH.
    destruct (Js.indexOf Js.LF (String c' s)); [discriminate|].
    exfalso. apply IH; [cbn; lia|reflexivity].
  - cbn [Js.drop]. destruct s as [|c' s]; [cbn in Hn; lia|].
    apply IH; [exact Hterm|cbn in *; lia].
Qed.

Lemma terminated_reads content position :
  terminated content = true ->
  0 <= position < Z.of_nat (String.length content) ->
  exists d, readDate (Some content) position = Resolved d.
Proof.
  intros Hterm Hpos. unfold readDate.
  destruct (position <? 0) eqn:E; [apply Z.ltb_lt in E; lia|].
  destruct (Js.indexOf Js.LF (Js.drop (Z.to_nat position) content)) eqn:Hi.
  - eauto.
  - exfalso. revert Hi. apply terminated_indexOf; [assumption|lia].
Qed.

(** In a file that ends with a newline, the read settles with a value at
    every offset of the file. *)
Theorem readDate_terminated content position :
  terminated content = true ->
  0 <= position < Z.of_nat (String.length content) ->
  exists d, readDate (Some content) position = Resolved d.
Proof. apply terminated_reads. Qed.

Lemma readDate_terminated_witness :
  terminated scenario = true /\
  0 <= 30 < Z.of_nat (String.length scenario) /\
  exists d, readDate (Some scenario) 30 = Resolved d.
Proof.
  split; [reflexivity|]. split; [vm_compute; split; [discriminate|reflexivity]|].
  apply (readDate_terminated scenario 30);
    [reflexivity|vm_compute; split; [discriminate|reflexivity]].
Defined.

(** ** binarySearch, further *)

(** The candidate is the sentinel or an offset whose read equals the
    target. *)
Lemma search_loop_candidate targetDate fuel :
  forall left right startPosition w w' p,
    (startPosition = -1 \/
     readDate (logFile w) startPosition = Resolved targetDate) ->
    search_loop targetDate fuel left right startPosition w = (w', Resolved p) ->
    p = -1 \/ readDate (logFile w) p = Resolved targetDate.
Proof.
  induction fuel as [|fuel IH]; intros left right s w w' p Hs; simpl;
    destruct (left <=? right) eqn:E; try discriminate;
    try (unfold ret; now intros [= _ <-]).
  read_date.
  destruct (readDate (logFile w) (midpoint left right)) as [d| | |] eqn:Er;
    try discriminate.
  unfold search_step.
  destruct (Js.eqb d targetDate) eqn:Ed.
  - apply String.eqb_eq in Ed. subst d.
    intros H. apply IH in H; [exact H|]. right. exact Er.
  - destruct (Js.ltb d targetDate); intros H; apply IH in H; auto.
Qed.

Lemma backtrack_loop_candidate targetDate fuel :
  forall startPosition w w' p,
    readDate (logFile w) startPosition = Resolved targetDate ->
    backtrack_loop targetDate fuel startPosition w = (w', Resolved p) ->
    readDate (logFile w) p = Resolved targetDate.
Proof.
  induction fuel as [|fuel IH]; intros s w w' p Hs; simpl;
    destruct (0 <? s) eqn:E; try discriminate;
    try (unfold ret; now intros [= _ <-]).
  read_date.
  destruct (readDate (logFile w) (s - 1)) as [d| | |] eqn:Er; try discriminate.
  destruct (Js.eqb d targetDate) eqn:Ed; simpl.
  - apply String.eqb_eq in Ed. subst d.
    intros H. apply IH in H; auto.
  - unfold ret. now intros [= _ <-].
Qed.

Lemma binarySearch_candidate targetDate w p :
  snd (binarySearch targetDate w) = Resolved p ->
  p <> -1 ->
  0 <= p < fileSize w /\
  readDate (logFile w) p = Resolved targetDate.
Proof.
  intros Hrun Hp.
  destruct (binarySearch targetDate w) as [w' r] eqn:E. simpl in Hrun. subst r.
  split; [apply binarySearch_found in E; tauto|].
  unfold binarySearch, bind in E.
  destruct (search_loop targetDate (Z.to_nat (fileSize w)) 0 (fileSize w - 1) (-1) w)
    as [w1 r1] eqn:E1.
  destruct r1 as [s| | |]; try discriminate.
  assert (Hlog : logFile w1 = logFile w).
  { change w1 with (fst (w1, @Resolved Z s)). rewrite <- E1.
    apply probes_only_logFile, probes_only_search_loop. }
  apply search_loop_candidate in E1; [|now left].
  destruct (s =? -1) eqn:Es; simpl in E.
  - unfold ret in E. injection E as _ <-. apply Z.eqb_eq in Es. contradiction.
  - apply Z.eqb_neq in Es. destruct E1 as [|E1]; [contradiction|].
    rewrite <- Hlog. eapply backtrack_loop_candidate; [|exact E].
    now rewrite Hlog.
Qed.

(** A position returned by the search, other than the sentinel -1, is an
    offset of the file at which the date read equals the target. *)
Theorem binarySearch_reads_target targetDate w p :
  snd (binarySearch targetDate w) = Resolved p ->
  p <> -1 ->
  0 <= p < fileSize w /\
  readDate (logFile w) p = Resolved targetDate.
Proof. apply binarySearch_candidate. Qed.

Lemma binarySearch_reads_target_witness :
  snd (binarySearch "2024-12-02" (probing centred)) = Resolved 13 /\
  13 <> -1 /\
  0 <= 13 < fileSize (probing centred) /\
  readDate (logFile (probing centred)) 13 = Resolved "2024-12-02".
Proof.
  split; [vm_compute; reflexivity|]. split; [lia|].
  apply (binarySearch_reads_target "2024-12-02" (probing centred) 13);
    [vm_compute; reflexivity|lia].
Defined.

Lemma validDate_length t : validDate t = true -> String.length t = 10%nat.
Proof.
  intros H. apply validDate_shape in H.
  destruct H as (y1 & y2 & y3 & y4 & m1 & m2 & d1 & d2 & -> & _). reflexivity.
Qed.

(** A well-formed date is not its own shift by one byte: the digit at
    offset 3 would have to be the hyphen at offset 4. *)
Lemma validDate_no_shift t (u : string) :
  validDate t = true ->
  Js.take 10 u = t ->
  Js.take 10 (Js.drop 1 u) = t ->
  False.
Proof.
  intros H. apply validDate_shape in H.
  destruct H as (y1 & y2 & y3 & y4 & m1 & m2 & d1 & d2 & -> & Hd).
  intros H1 H2.
  destruct u as [|c0 u]; [discriminate H1|].
  cbn [Js.drop] in H2.
  do 10 (destruct u as [|? u]; [discriminate H2|]; cbn [Js.take] in H1, H2).
  injection H1 as ? ? ? ? ? ? ? ? ? ?.
  injection H2 as ? ? ? ? ? ? ? ? ? ?.
  subst. cbn in Hd. discriminate Hd.
Qed.

Lemma readDate_take10 content position t :
  readDate (Some content) position = Resolved t ->
  String.length t = 10%nat ->
  Js.take 10 (Js.drop (Z.to_nat position) content) = t.
Proof.
  intros Hread Hlen. unfold readDate in Hread. cbv zeta in Hread.
  destruct (position <? 0); [discriminate|].
  destruct (Js.indexOf Js.LF (Js.drop (Z.to_nat position) content))
    as [i|]; [|discriminate].
  assert (Hd : Js.take 10 (Js.take i (Js.drop (Z.to_nat position) content)) = t)
    by exact (f_equal (fun r => match r with Resolved x => x | _ => t end) Hread).
  rewrite take_take in Hd.
  assert (Hmin : Nat.min 10 i = 10%nat).
  { rewrite <- Hd, length_take in Hlen. lia. }
  now rewrite Hmin in Hd.
Qed.

(** Two adjacent offsets cannot both read a well-formed date. *)
Lemma readDate_adjacent file targetDate s :
  validDate targetDate = true ->
  0 < s ->
  readDate file s = Resolved targetDate ->
  readDate file (s - 1) = Resolved targetDate ->
  False.
Proof.
  intros Hvalid Hs H1 H0.
  destruct file as [content|];
    [|unfold readDate in H1; destruct (s <? 0); discriminate].
  pose proof (validDate_length _ Hvalid) as Hlen.
  apply readDate_take10 in H1; [|assumption].
  apply readDate_take10 in H0; [|assumption].
  replace (Z.to_nat s) with (S (Z.to_nat (s - 1))) in H1 by lia.
  rewrite drop_S in H1.
  exact (validDate_no_shift _ _ Hvalid H0 H1).
Qed.

(** For a well-formed date the backtrack loop reads once at most and leaves
    the candidate where it is. *)
Lemma backtrack_loop_valid targetDate fuel s w :
  validDate targetDate = true ->
  readDate (logFile w) s = Resolved targetDate ->
  exists tr,
    trace (fst (backtrack_loop targetDate fuel s w)) = (trace w ++ tr)%list /\
    (length tr <= 1)%nat /\
    forall p, snd (backtrack_loop targetDate fuel s w) = Resolved p -> p = s.
Proof.
  intros Hvalid Hs.
  destruct fuel as [|fuel]; simpl; destruct (0 <? s) eqn:E;
    try (exists []; rewrite app_nil_r; unfold ret; simpl;
         repeat split; [lia|intros p; congruence]).
  apply Z.ltb_lt in E. unfold bind, getDateAtPosition.
  destruct (readDate (logFile w) (s - 1)) as [d| | |] eqn:Er;
    try (exists [EvRead (s - 1)]; simpl; repeat split; [lia|intros p; congruence]).
  destruct (Js.eqb d targetDate) eqn:Ed; simpl.
  - apply String.eqb_eq in Ed. subst d.
    exfalso. exact (readDate_adjacent _ _ _ Hvalid E Hs Er).
  - exists [EvRead (s - 1)]. unfold ret. simpl.
    repeat split; [lia|intros p; congruence].
Qed.

(** Each turn of the main loop halves the interval. *)
Lemma search_step_halves targetDate left right startPosition date l r s :
  left <= right ->
  search_step targetDate (midpoint left right) left right startPosition date
    = (l, r, s) ->
  2 * (r - l + 1) <= right - left + 1.
Proof.
  intros Hle Hs. unfold search_step, midpoint in Hs.
  destruct (Js.eqb date targetDate); [|destruct (Js.ltb date targetDate)];
    injection Hs as <- <- <-; Z.div_mod_to_equations; lia.
Qed.

Lemma search_loop_probes targetDate fuel :
  forall left right startPosition w,
  exists tr,
    trace (fst (search_loop targetDate fuel left right startPosition w))
      = (trace w ++ tr)%list /\
    (left <= right -> 2 ^ Z.of_nat (length tr) <= 2 * (right - left + 1)) /\
    (right < left -> tr = []).
Proof.
  induction fuel as [|fuel IH]; intros left right s w; simpl;
    destruct (left <=? right) eqn:E.
  - apply Z.leb_le in E. exists []. rewrite app_nil_r. simpl.
    split; [reflexivity|]. split; [intros _; change (2 ^ 0) with 1|]; lia.
  - apply Z.leb_gt in E. exists []. rewrite app_nil_r. unfold ret. simpl.
    split; [reflexivity|]. split; [lia|reflexivity].
  - apply Z.leb_le in E. read_date.
    destruct (readDate (logFile w) (midpoint left right)) as [d| | |];
      try (exists [EvRead (midpoint left right)]; simpl;
           split; [reflexivity|];
           split; [intros _; change (2 ^ 1) with 2|]; lia).
    destruct (search_step targetDate (midpoint left right) left right s d)
      as [[l r] s'] eqn:Es.
    apply search_step_halves in Es; [|assumption].
    destruct (IH l r s' (emit (EvRead (midpoint left right)) w))
      as (tr & Htr & Hwide & Hempty).
    exists (EvRead (midpoint left right) :: tr). rewrite Htr. simpl.
    rewrite <- app_assoc. simpl.
    split; [reflexivity|]. split; [|lia].
    intros _. rewrite Nat2Z.inj_succ, Z.pow_succ_r by lia.
    destruct (Z_le_gt_dec l r) as [Hlr|Hlr].
    + specialize (Hwide Hlr). lia.
    + rewrite Hempty by lia. simpl length. change (2 ^ Z.of_nat 0) with 1. lia.
  - apply Z.leb_gt in E. exists []. rewrite app_nil_r. unfold ret. simpl.
    split; [reflexivity|]. split; [lia|reflexivity].
Qed.

(** The search for a well-formed date, in two phases: the reads of the main
    loop, then one read at most, which leaves the candidate in place. *)
Lemma binarySearch_valid targetDate w :
  validDate targetDate = true ->
  exists tr1 tr2,
    trace (fst (binarySearch targetDate w)) = (trace w ++ tr1 ++ tr2)%list /\
    (0 < fileSize w -> 2 ^ Z.of_nat (length tr1) <= 2 * fileSize w) /\
    (fileSize w <= 0 -> tr1 = []) /\
    (length tr2 <= 1)%nat /\
    (fileSize w <= 0 -> tr2 = []) /\
    forall p,
      snd (binarySearch targetDate w) = Resolved p ->
      snd (search_loop targetDate (Z.to_nat (fileSize w)) 0 (fileSize w - 1) (-1) w)
        = Resolved p.
Proof.
  intros Hvalid.
  destruct (search_loop_probes targetDate (Z.to_nat (fileSize w)) 0
              (fileSize w - 1) (-1) w) as (tr1 & Htr1 & Hwide & Hempty).
  unfold binarySearch, bind.
  destruct (search_loop targetDate (Z.to_nat (fileSize w)) 0 (fileSize w - 1) (-1) w)
    as [w1 r1] eqn:E1.
  simpl in Htr1.
  assert (Hlog : logFile w1 = logFile w).
  { change w1 with (fst (w1, r1)). rewrite <- E1.
    apply probes_only_logFile, probes_only_search_loop. }
  assert (Hbounds : (0 < fileSize w -> 2 ^ Z.of_nat (length tr1) <= 2 * fileSize w)
                    /\ (fileSize w <= 0 -> tr1 = [])).
  { split; intros H; [|apply Hempty; lia].
    replace (2 * fileSize w) with (2 * (fileSize w - 1 - 0 + 1)) by lia.
    apply Hwide. lia. }
  destruct Hbounds as [Hb1 Hb2].
  assert (Hnone : forall tr2 : list io_event,
            tr2 = [] -> (length tr2 <= 1)%nat /\ (fileSize w <= 0 -> tr2 = []))
    by (intros tr2 ->; split; [simpl; lia|reflexivity]).
  destruct r1 as [s| | |];
    try (exists tr1, []; simpl; rewrite app_nil_r;
         repeat (split; [first [assumption|apply Hnone; reflexivity
                               |simpl; lia|reflexivity]|]);
         intros p; congruence).
  destruct (s =? -1) eqn:Es; simpl.
  - exists tr1, []. unfold ret. simpl. rewrite app_nil_r.
    repeat (split; [first [assumption|simpl; lia|reflexivity]|]).
    intros p H. exact H.
  - apply Z.eqb_neq in Es.
    pose proof (search_loop_range _ _ _ _ _ _ _ _ E1) as Hrange.
    apply search_loop_candidate in E1; [|now left].
    destruct E1 as [|E1]; [contradiction|].
    rewrite <- Hlog in E1.
    destruct (backtrack_loop_valid targetDate (Z.to_nat s) s w1 Hvalid E1)
      as (tr2 & Htr2 & Hlen & Hsame).
    exists tr1, tr2. rewrite Htr2, Htr1, <- app_assoc.
    repeat (split; [first [assumption|reflexivity]|]).
    split.
    + intros Hz. exfalso. lia.
    + intros p Hp. apply Hsame in Hp. now subst p.
Qed.

(** For a well-formed date the backtrack phase never moves: the position the
    search returns is the candidate the main loop ended with. *)
Theorem binarySearch_last_candidate targetDate w p :
  validDate targetDate = true ->
  snd (binarySearch targetDate w) = Resolved p ->
  snd (search_loop targetDate (Z.to_nat (fileSize w)) 0 (fileSize w - 1) (-1) w)
    = Resolved p.
Proof.
  intros Hvalid Hrun.
  destruct (binarySearch_valid targetDate w Hvalid)
    as (tr1 & tr2 & _ & _ & _ & _ & _ & Hsame).
  now apply Hsame.
Qed.

Lemma binarySearch_last_candidate_witness :
  validDate "2024-12-02" = true /\
  snd (binarySearch "2024-12-02" (probing centred)) = Resolved 13 /\
  snd (search_loop "2024-12-02" (Z.to_nat (fileSize (probing centred))) 0
         (fileSize (probing centred) - 1) (-1) (probing centred))
    = Resolved 13.
Proof.
  split; [reflexivity|]. split; [vm_compute; reflexivity|].
  apply (binarySearch_last_candidate "2024-12-02" (probing centred) 13);
    [reflexivity|vm_compute; reflexivity].
Defined.

(** The search for a well-formed date issues date reads only, none on an
    empty file and at most log2(fileSize) + 2 of them otherwise. *)
Theorem binarySearch_probe_count targetDate w :
  validDate targetDate = true ->
  exists probes,
    trace (fst (binarySearch targetDate w)) = (trace w ++ probes)%list /\
    Forall is_read probes /\
    (fileSize w <= 0 -> probes = []) /\
    (0 < fileSize w -> Z.of_nat (length probes) <= Z.log2 (fileSize w) + 2).
Proof.
  intros Hvalid.
  destruct (binarySearch_valid targetDate w Hvalid)
    as (tr1 & tr2 & Htrace & Hwide & Hempty1 & Hlen & Hempty2 & _).
  exists (tr1 ++ tr2)%list. split; [exact Htrace|]. split; [|split].
  - destruct (probes_only_binarySearch targetDate w) as (tr & r & Hreads & Hrun).
    rewrite (Hrun w eq_refl eq_refl) in Htrace. simpl in Htrace.
    apply app_inv_head in Htrace. now subst tr.
  - intros Hz. now rewrite Hempty1, Hempty2.
  - intros Hz. specialize (Hwide Hz).
    assert (Hlog : Z.of_nat (length tr1) <= Z.log2 (2 * fileSize w))
      by (apply Z.log2_le_pow2; lia).
    rewrite Z.log2_double in Hlog by lia.
    rewrite length_app. lia.
Qed.

Lemma binarySearch_probe_count_witness :
  validDate "2024-12-02" = true /\
  exists probes,
    trace (fst (binarySearch "2024-12-02" (probing scenario)))
      = (trace (probing scenario) ++ probes)%list /\
    Forall is_read probes /\
    (fileSize (probing scenario) <= 0 -> probes = []) /\
    (0 < fileSize (probing scenario) ->
     Z.of_nat (length probes) <= Z.log2 (fileSize (probing scenario)) + 2).
Proof.
  split; [reflexivity|].
  apply (binarySearch_probe_count "2024-12-02" (probing scenario)). reflexivity.
Defined.

(** ** extractLogs, further *)

Lemma binarySearch_total targetDate w :
  0 <= fileSize w ->
  (forall pos, 0 <= pos < fileSize w ->
               exists d, readDate (logFile w) pos = Resolved d) ->
  exists w' p, binarySearch targetDate w = (w', Resolved p).
Proof.
  intros Hsize Hread. unfold binarySearch.
  destruct (search_loop_total targetDate (Z.to_nat (fileSize w))
              0 (fileSize w - 1) (-1) w) as (w1 & s & Hloop).
  { lia. }
  { intros pos Hpos. apply Hread. lia. }
  unfold bind at 1. rewrite Hloop.
  pose proof (search_loop_range _ _ _ _ _ _ _ _ Hloop) as Hrange.
  assert (Hlog : logFile w1 = logFile w).
  { change w1 with (fst (w1, @Resolved Z s)). rewrite <- Hloop.
    apply probes_only_logFile, probes_only_search_loop. }
  destruct (s =? -1) eqn:Es; simpl.
  - unfold ret. eauto.
  - apply Z.eqb_neq in Es.
    apply backtrack_loop_total; [lia|].
    intros pos Hpos. rewrite Hlog. apply Hread. lia.
Qed.

Lemma locate_terminated targetDate content :
  terminated content = true ->
  exists p, locate targetDate content = Resolved p.
Proof.
  intros Hterm. unfold locate.
  destruct (binarySearch_total targetDate (probing content)) as (w' & p & Hrun).
  - simpl. lia.
  - intros pos Hpos. simpl in *. now apply terminated_reads.
  - exists p. now rewrite Hrun.
Qed.

Lemma extractLogs_terminated targetDate startTime endTime w content :
  validDate targetDate = true ->
  logFile w = Some content ->
  terminated content = true ->
  exists w' s, extractLogs targetDate startTime endTime w = (w', Resolved s).
Proof.
  intros Hvalid Hlog Hterm.
  destruct (extractLogs_spec targetDate startTime endTime w content Hvalid Hlog)
    as (w' & probes & tail & Hrun & _).
  destruct (locate_terminated targetDate content Hterm) as (p & Hp).
  exists w'. rewrite Hrun. unfold extraction. rewrite Hp.
  destruct (p =? -1); eauto.
Qed.

(** Over a log file that is empty or ends with a newline, the extraction for
    a well-formed date returns a summary: it neither fails nor hangs. *)
Theorem extractLogs_returns targetDate startTime endTime w content :
  validDate targetDate = true ->
  logFile w = Some content ->
  terminated content = true ->
  exists w' s, extractLogs targetDate startTime endTime w = (w', Resolved s).
Proof. apply extractLogs_terminated. Qed.

Lemma extractLogs_returns_witness :
  validDate "2024-12-02" = true /\
  logFile (initial (Some scenario)) = Some scenario /\
  terminated scenario = true /\
  exists w' s,
    extractLogs "2024-12-02" 0 1 (initial (Some scenario)) = (w', Resolved s).
Proof.
  split; [reflexivity|]. split; [reflexivity|]. split; [reflexivity|].
  apply (extractLogs_returns "2024-12-02" 0 1 (initial (Some scenario)) scenario);
    reflexivity.
Defined.

Lemma locate_reads_target targetDate content p :
  locate targetDate content = Resolved p ->
  p <> -1 ->
  readDate (Some content) p = Resolved targetDate.
Proof.
  intros Hloc Hp.
  apply (binarySearch_candidate targetDate (probing content) p Hloc Hp).
Qed.

(** When the ten bytes at no offset of the log file are the target date, the
    extraction finds nothing: the output file is left empty, and a summary
    that is returned reports no line. *)
Theorem extractLogs_absent targetDate startTime endTime w content :
  validDate targetDate = true ->
  logFile w = Some content ->
  (forall n, Js.take 10 (Js.drop n content) <> targetDate) ->
  outputs (fst (extractLogs targetDate startTime endTime w))
    !! outputName targetDate = Some "" /\
  forall s,
    snd (extractLogs targetDate startTime endTime w) = Resolved s ->
    s = mkSummary 0 0 (endTime - startTime).
Proof.
  intros Hvalid Hlog Habs.
  destruct (extractLogs_spec targetDate startTime endTime w content Hvalid Hlog)
    as (w' & probes & tail & Hrun & _ & _ & Hout & _).
  rewrite Hrun. simpl. rewrite Hout.
  assert (Hnone : forall p, locate targetDate content = Resolved p -> p = -1).
  { intros p Hp. destruct (Z.eq_dec p (-1)) as [|Hne]; [assumption|].
    exfalso. apply (Habs (Z.to_nat p)).
    apply readDate_take10; [|now apply validDate_length].
    now apply locate_reads_target. }
  unfold written, extraction.
  destruct (locate targetDate content) as [p| | |] eqn:Hloc;
    try (split; [reflexivity|intros s; discriminate]).
  rewrite (Hnone p eq_refl). simpl.
  split; [reflexivity|]. intros s [= <-]. reflexivity.
Qed.

Lemma extractLogs_absent_witness :
  validDate "2024-12-05" = true /\
  logFile (initial (Some oneLine)) = Some oneLine /\
  (forall n, Js.take 10 (Js.drop n oneLine) <> "2024-12-05") /\
  outputs (fst (extractLogs "2024-12-05" 0 1 (initial (Some oneLine))))
    !! outputName "2024-12-05" = Some "" /\
  forall s,
    snd (extractLogs "2024-12-05" 0 1 (initial (Some oneLine))) = Resolved s ->
    s = mkSummary 0 0 (1 - 0).
Proof.
  assert (Habs : forall n, Js.take 10 (Js.drop n oneLine) <> "2024-12-05").
  { intros n. do 14 (destruct n as [|n]; [vm_compute; discriminate|]).
    vm_compute. discriminate. }
  split; [reflexivity|]. split; [reflexivity|]. split; [exact Habs|].
  apply (extractLogs_absent "2024-12-05" 0 1 (initial (Some oneLine)) oneLine);
    [reflexivity|reflexivity|exact Habs].
Defined.

(** When the log file is missing, the extraction for a well-formed date is
    rejected by [stat], after the output directory has been created if it
    was missing and the output file has been created empty; nothing is read. *)
Theorem extractLogs_missing_log targetDate startTime endTime w :
  validDate targetDate = true ->
  logFile w = None ->
  snd (extractLogs targetDate startTime endTime w) = Rejected SourceUnavailable /\
  outputDir (fst (extractLogs targetDate startTime endTime w)) = true /\
  outputs (fst (extractLogs targetDate startTime endTime w))
    !! outputName targetDate = Some "" /\
  trace (fst (extractLogs targetDate startTime endTime w))
    = (trace w ++ opening (outputDir w) (outputName targetDate))%list.
Proof.
  intros Hvalid Hlog.
  destruct w as [lf od outs fs tr0]. simpl in Hlog. subst lf.
  unfold extractLogs. rewrite Hvalid. simpl negb. cbv iota.
  unfold bind, initializeOutputDir, createWriteStream, stat, opening. simpl.
  destruct od; simpl; repeat split;
    try apply lookup_insert_eq; now rewrite <- !app_assoc.
Qed.

Lemma extractLogs_missing_log_witness :
  validDate "2024-12-02" = true /\
  logFile (initial None) = None /\
  snd (extractLogs "2024-12-02" 0 1 (initial None)) = Rejected SourceUnavailable /\
  outputDir (fst (extractLogs "2024-12-02" 0 1 (initial None))) = true /\
  outputs (fst (extractLogs "2024-12-02" 0 1 (initial None)))
    !! outputName "2024-12-02" = Some "" /\
  trace (fst (extractLogs "2024-12-02" 0 1 (initial None)))
    = (trace (initial None)
       ++ opening (outputDir (initial None)) (outputName "2024-12-02"))%list.
Proof.
  split; [reflexivity|]. split; [reflexivity|].
  apply (extractLogs_missing_log "2024-12-02" 0 1 (initial None)); reflexivity.
Defined.

(** ** The scan and the output file, further *)

(** The scan divides the lines: the run it takes, each dated the target,
    and what is left, empty or beginning with a line of another date. *)
Lemma matching_split targetDate lines :
  exists rest,
    lines = (matching targetDate lines ++ rest)%list /\
    Forall (fun line => Js.take 10 line = targetDate) (matching targetDate lines) /\
    match rest with
    | [] => True
    | line :: _ => Js.take 10 line <> targetDate
    end.
Proof.
  induction lines as [|line lines (rest & Hsplit & Hall & Hrest)];
    cbn [matching].
  - exists []. repeat split; constructor.
  - destruct (Js.eqb (Js.take 10 line) targetDate) eqn:E.
    + apply String.eqb_eq in E. exists rest. cbn [app].
      split; [now rewrite <- Hsplit|]. split; [now constructor|assumption].
    + apply String.eqb_neq in E. exists (line :: lines).
      split; [reflexivity|]. split; [constructor|assumption].
Qed.

(** Over an ASCII log file, when the search finds a position, the
    extraction writes to the output file the lines that [readline] yields
    from that position on, up to the first one whose first ten bytes are not
    the target date, each followed by a newline, and reports their number
    together with the byte size of the log file. *)
Theorem extractLogs_found targetDate startTime endTime w content p :
  validDate targetDate = true ->
  ascii_only content = true ->
  logFile w = Some content ->
  locate targetDate content = Resolved p ->
  p <> -1 ->
  exists taken rest,
    rl_lines "" (Js.drop (Z.to_nat p) content) = (taken ++ rest)%list /\
    Forall (fun line => Js.take 10 line = targetDate) taken /\
    match rest with
    | [] => True
    | line :: _ => Js.take 10 line <> targetDate
    end /\
    snd (extractLogs targetDate startTime endTime w)
      = Resolved (mkSummary (Z.of_nat (String.length content))
                            (Z.of_nat (length taken)) (endTime - startTime)) /\
    outputs (fst (extractLogs targetDate startTime endTime w))
      !! outputName targetDate = Some (joinLines taken).
Proof.
  intros Hvalid _ Hlog Hloc Hp.
  destruct (extractLogs_spec targetDate startTime endTime w content Hvalid Hlog)
    as (w' & probes & tail & Hrun & _ & _ & Hout & _).
  destruct (matching_split targetDate (rl_lines "" (Js.drop (Z.to_nat p) content)))
    as (rest & Hsplit & Hall & Hrest).
  exists (scanned targetDate content p), rest.
  rewrite Hrun. simpl. rewrite Hout. unfold extraction, written. rewrite Hloc.
  apply Z.eqb_neq in Hp. rewrite Hp.
  repeat split; assumption.
Qed.

Lemma extractLogs_found_witness :
  validDate "2024-12-02" = true /\
  ascii_only centred = true /\
  logFile (initial (Some centred)) = Some centred /\
  locate "2024-12-02" centred = Resolved 13 /\
  13 <> -1 /\
  exists taken rest,
    rl_lines "" (Js.drop (Z.to_nat 13) centred) = (taken ++ rest)%list /\
    Forall (fun line => Js.take 10 line = "2024-12-02") taken /\
    match rest with
    | [] => True
    | line :: _ => Js.take 10 line <> "2024-12-02"
    end /\
    snd (extractLogs "2024-12-02" 0 1 (initial (Some centred)))
      = Resolved (mkSummary (Z.of_nat (String.length centred))
                            (Z.of_nat (length taken)) (1 - 0)) /\
    outputs (fst (extractLogs "2024-12-02" 0 1 (initial (Some centred))))
      !! outputName "2024-12-02" = Some (joinLines taken).
Proof.
  split; [reflexivity|]. split; [reflexivity|]. split; [reflexivity|].
  split; [vm_compute; reflexivity|]. split; [lia|].
  apply (extractLogs_found "2024-12-02" 0 1 (initial (Some centred)) centred 13);
    [reflexivity|reflexivity|reflexivity|vm_compute; reflexivity|lia].
Defined.

Lemma clean_empty : clean "".
Proof. split; reflexivity. Qed.

Lemma clean_cons c (s : string) :
  clean (String c s) <->
  Ascii.eqb c Js.LF = false /\ Ascii.eqb c Js.CR = false /\ clean s.
Proof.
  unfold clean. cbn [Js.indexOf].
  destruct (Ascii.eqb c Js.LF), (Ascii.eqb c Js.CR),
    (Js.indexOf Js.LF s), (Js.indexOf Js.CR s);
    split; intros H; try discriminate (proj1 H); try discriminate (proj2 H);
    try tauto;
    destruct H as (H1 & H2 & H3 & H4); discriminate.
Qed.

Lemma clean_snoc (s : string) c :
  clean s ->
  Ascii.eqb c Js.LF = false -> Ascii.eqb c Js.CR = false ->
  clean (s +:+ String c "").
Proof.
  induction s as [|x s IH]; intros Hs Hlf Hcr.
  - change (clean (String c "")). apply clean_cons. auto using clean_empty.
  - rewrite append_cons. apply clean_cons in Hs. apply clean_cons.
    destruct Hs as (H1 & H2 & H3). auto.
Qed.

(** No line that [readline] yields holds a line break. *)
Lemma rl_lines_clean (s : string) :
  forall cur, clean cur -> Forall clean (rl_lines cur s).
Proof.
  induction s as [|c s IH]; intros cur Hcur; cbn [rl_lines].
  - destruct (Js.eqb cur ""); constructor; [assumption|constructor].
  - destruct (Ascii.eqb c Js.LF) eqn:Elf.
    + constructor; [assumption|apply IH, clean_empty].
    + destruct (Ascii.eqb c Js.CR) eqn:Ecr.
      * destruct s as [|c' s'].
        -- constructor; [assumption|apply IH, clean_empty].
        -- destruct (Ascii.eqb c' Js.LF) eqn:Elf'.
           ++ constructor; [assumption|].
              specialize (IH "" clean_empty). cbn [rl_lines] in IH.
              rewrite Elf' in IH. now inversion IH.
           ++ constructor; [assumption|apply IH, clean_empty].
      * apply IH. now apply clean_snoc.
Qed.

Lemma rl_lines_line (line : string) :
  forall cur more,
    clean line ->
    rl_lines cur (line +:+ String Js.LF more) = (cur +:+ line) :: rl_lines "" more.
Proof.
  induction line as [|c line IH]; intros cur more Hline.
  - change ("" +:+ String Js.LF more) with (String Js.LF more).
    cbn [rl_lines]. rewrite Ascii.eqb_refl. now rewrite append_empty_r.
  - apply clean_cons in Hline. destruct Hline as (Hlf & Hcr & Hline).
    rewrite append_cons. cbn [rl_lines]. rewrite Hlf, Hcr.
    rewrite IH by assumption. now rewrite append_assoc.
Qed.

(** Lines without line break, written one per line, are read back as they
    were. *)
Lemma rl_lines_joinLines lines :
  Forall clean lines -> rl_lines "" (joinLines lines) = lines.
Proof.
  induction 1 as [|line lines Hline Hlines IH]; [reflexivity|].
  cbn [joinLines]. rewrite append_assoc.
  change (String Js.LF "" +:+ joinLines lines) with (String Js.LF (joinLines lines)).
  rewrite rl_lines_line by assumption. now rewrite IH.
Qed.

Lemma matching_Forall {P : string -> Prop} targetDate lines :
  Forall P lines -> Forall P (matching targetDate lines).
Proof.
  induction 1 as [|line lines Hline Hlines IH]; cbn [matching]; [constructor|].
  destruct (Js.eqb (Js.take 10 line) targetDate); now constructor.
Qed.

(** Read back line by line, the output file of an extraction that returned
    holds as many lines as the summary reports, each dated the target. *)
Theorem output_lines_match_summary targetDate startTime endTime w content s :
  validDate targetDate = true ->
  logFile w = Some content ->
  snd (extractLogs targetDate startTime endTime w) = Resolved s ->
  exists out,
    outputs (fst (extractLogs targetDate startTime endTime w))
      !! outputName targetDate = Some out /\
    Z.of_nat (length (rl_lines "" out)) = matchedLines s /\
    Forall (fun line => Js.take 10 line = targetDate) (rl_lines "" out).
Proof.
  intros Hvalid Hlog Hrun.
  destruct (extractLogs_spec targetDate startTime endTime w content Hvalid Hlog)
    as (w' & probes & tail & Hspec & _ & _ & Hout & _).
  rewrite Hspec in Hrun |- *. simpl in Hrun |- *.
  exists (written targetDate content). split; [assumption|].
  unfold extraction in Hrun. unfold written.
  destruct (locate targetDate content) as [p| | |]; try discriminate.
  destruct (p =? -1).
  - injection Hrun as <-. split; [reflexivity|constructor].
  - injection Hrun as <-. cbn [matchedLines].
    assert (Hback : rl_lines "" (joinLines (scanned targetDate content p))
                    = scanned targetDate content p).
    { apply rl_lines_joinLines. apply matching_Forall.
      apply rl_lines_clean, clean_empty. }
    rewrite Hback. split; [reflexivity|].
    destruct (matching_split targetDate
                (rl_lines "" (Js.drop (Z.to_nat p) content)))
      as (rest & _ & Hall & _).
    exact Hall.
Qed.

Lemma output_lines_match_summary_witness :
  validDate "2024-12-02" = true /\
  logFile (initial (Some centred)) = Some centred /\
  snd (extractLogs "2024-12-02" 0 1 (initial (Some centred)))
    = Resolved (mkSummary 27 1 1) /\
  exists out,
    outputs (fst (extractLogs "2024-12-02" 0 1 (initial (Some centred))))
      !! outputName "2024-12-02" = Some out /\
    Z.of_nat (length (rl_lines "" out)) = matchedLines (mkSummary 27 1 1) /\
    Forall (fun line => Js.take 10 line = "2024-12-02") (rl_lines "" out).
Proof.
  split; [reflexivity|]. split; [reflexivity|]. split; [vm_compute; reflexivity|].
  apply (output_lines_match_summary "2024-12-02" 0 1 (initial (Some centred))
           centred (mkSummary 27 1 1));
    [reflexivity|reflexivity|vm_compute; reflexivity].
Defined.

(** ** What the extraction leaves alone *)

Lemma frames_ret name {A} (a : A) : frames name (ret a).
Proof. intros w. split; [reflexivity|]. intros k _. reflexivity. Qed.

Lemma frames_bind name {A B} (m : IO A) (k : A -> IO B) :
  frames name m -> (forall x, frames name (k x)) -> frames name (bind m k).
Proof.
  intros Hm Hk w. unfold bind.
  destruct (Hm w) as [Hl Ho].
  destruct (m w) as [w1 r]. simpl in Hl, Ho.
  destruct r as [x| | |]; simpl; try (split; assumption).
  destruct (Hk x w1) as [Hl' Ho'].
  split; [congruence|].
  intros j Hj. rewrite Ho' by assumption. now apply Ho.
Qed.

Lemma frames_probes name {A} (m : IO A) : probes_only m -> frames name m.
Proof.
  intros Hm w. destruct (Hm w) as (tr & r & _ & Hrun).
  rewrite (Hrun w eq_refl eq_refl). simpl. split; [reflexivity|].
  intros k _. reflexivity.
Qed.

Lemma frames_write name data : frames name (write name data).
Proof.
  intros w. unfold write. simpl. split; [reflexivity|].
  intros k Hk. now apply lookup_insert_ne.
Qed.

Lemma frames_scan_loop targetDate name lines :
  forall matchedLines, frames name (scan_loop targetDate name lines matchedLines).
Proof.
  induction lines as [|line rest IH]; intros n; cbn [scan_loop].
  - apply frames_ret.
  - destruct (negb (Js.eqb (Js.take 10 line) targetDate)); [apply frames_ret|].
    apply frames_bind; [apply frames_write|]. intros _. apply IH.
Qed.

Lemma frames_finally name {A} (body : IO A) e :
  frames name body -> frames name (finally body (emit e)).
Proof.
  intros Hb w. unfold finally. destruct (Hb w) as [Hl Ho].
  destruct (body w) as [w1 r]. simpl in *. split; assumption.
Qed.

Lemma frames_quiet name {A} (m : IO A) :
  (forall w, logFile (fst (m w)) = logFile w /\
             outputs (fst (m w)) = outputs w) ->
  frames name m.
Proof.
  intros Hm w. destruct (Hm w) as [H1 H2]. split; [assumption|].
  intros k _. now rewrite H2.
Qed.

Lemma frames_open name {B} (k : string -> IO B) :
  frames name (k name) -> frames name (bind (createWriteStream name) k).
Proof.
  intros Hk w. unfold bind, createWriteStream.
  match goal with
  | |- context [k name ?w1] => destruct (Hk w1) as [Hl Ho]
  end.
  split; [exact Hl|].
  intros j Hj. rewrite Ho by assumption. simpl. now apply lookup_insert_ne.
Qed.

Lemma frames_extractLogs targetDate startTime endTime :
  frames (outputName targetDate) (extractLogs targetDate startTime endTime).
Proof.
  unfold extractLogs.
  destruct (negb (validDate targetDate)).
  { apply frames_quiet. intros w. split; reflexivity. }
  apply frames_bind.
  { apply frames_quiet. intros w. unfold initializeOutputDir.
    destruct (negb (outputDir (emit EvExistsDir w))); split; reflexivity. }
  intros _. apply frames_open. apply frames_bind.
  { apply frames_quiet. intros w. unfold stat. simpl.
    destruct (logFile w) eqn:E; simpl; auto. }
  intros size. apply frames_bind.
  { apply frames_quiet. intros w. split; reflexivity. }
  intros _. apply frames_bind.
  { apply frames_probes, probes_only_binarySearch. }
  intros p. destruct (p =? -1); [apply frames_ret|].
  apply frames_bind.
  { apply frames_quiet. intros w. unfold readLines. simpl.
    destruct (p <? 0); [|destruct (logFile w) eqn:E]; simpl; auto. }
  intros lines. apply frames_bind.
  - apply frames_finally, frames_scan_loop.
  - intros n. apply frames_quiet. intros w. split; reflexivity.
Qed.

(** An extraction leaves the log file as it was, and of the files of the
    output directory it touches only the one named after the target date. *)
Theorem extractLogs_frame targetDate startTime endTime w :
  logFile (fst (extractLogs targetDate startTime endTime w)) = logFile w /\
  forall name,
    name <> outputName targetDate ->
    outputs (fst (extractLogs targetDate startTime endTime w)) !! name
      = outputs w !! name.
Proof. apply frames_extractLogs. Qed.

Lemma extractLogs_frame_witness :
  "output_2024-12-01.txt" <> outputName "2024-12-02" /\
  outputs (fst (extractLogs "2024-12-02" 5 9
                  (fst (extractLogs "2024-12-01" 0 1 (initial (Some centred))))))
    !! "output_2024-12-01.txt"
    = outputs (fst (extractLogs "2024-12-01" 0 1 (initial (Some centred))))
        !! "output_2024-12-01.txt".
Proof.
  split; [discriminate|].
  apply (proj2 (extractLogs_frame "2024-12-02" 5 9
                  (fst (extractLogs "2024-12-01" 0 1 (initial (Some centred)))))).
  discriminate.
Defined.

(** ** generateSampleData *)

Lemma joinLines_app (a b : list string) :
  joinLines (a ++ b) = joinLines a +:+ joinLines b.
Proof.
  induction a as [|line a IH]; [reflexivity|].
  cbn [app joinLines]. rewrite IH. symmetry. apply append_assoc.
Qed.

Lemma logged_logged (a b : list string) w :
  logged b (logged a w) = logged (a ++ b) w.
Proof.
  unfold logged. cbn [logFile outputDir outputs fileSize trace default].
  rewrite joinLines_app, map_app, app_assoc.
  do 2 f_equal. apply append_assoc.
Qed.

Lemma logged_nil w c : logFile w = Some c -> logged [] w = w.
Proof.
  intros H. destruct w as [lf od outs fs tr]. simpl in H. subst lf.
  unfold logged. cbn. now rewrite append_empty_r, app_nil_r.
Qed.

Lemma writeLog_logged line w :
  writeLog (line +:+ String Js.LF "") w = (logged [line] w, Resolved tt).
Proof.
  unfold writeLog, logged, set_logFile, emit.
  cbn [logFile outputDir outputs fileSize trace joinLines map].
  now rewrite append_empty_r.
Qed.

(** A loop whose turns write lines writes the lines of all its turns. *)
Lemma for_loop_logged (body : nat -> IO unit) (g : nat -> list string) :
  (forall i w c, logFile w = Some c -> body i w = (logged (g i) w, Resolved tt)) ->
  forall count first w c,
    logFile w = Some c ->
    for_loop count first body w
      = (logged (flat_map g (seq first count)) w, Resolved tt).
Proof.
  intros Hbody. induction count as [|count IH]; intros first w c Hw;
    cbn [for_loop seq flat_map].
  - unfold ret. now rewrite (logged_nil w c).
  - unfold bind. rewrite (Hbody first w c Hw).
    rewrite (IH (S first) (logged (g first) w)
                (c +:+ joinLines (g first))).
    + now rewrite logged_logged.
    + unfold logged. cbn [logFile]. now rewrite Hw.
Qed.

Lemma flat_map_single {A B} (f : A -> B) (l : list A) :
  flat_map (fun x => [f x]) l = map f l.
Proof. induction l as [|x l IH]; [reflexivity|]. cbn. now rewrite IH. Qed.

Lemma sampleLines_length h numberOfDays entriesPerDay :
  length (sampleLines h numberOfDays entriesPerDay)
    = (numberOfDays * entriesPerDay)%nat.
Proof.
  unfold sampleLines. generalize 0%nat at 2.
  induction numberOfDays as [|n IH]; intros first; [reflexivity|].
  cbn [seq flat_map]. rewrite length_app, length_map, length_seq, IH. lia.
Qed.

Lemma day_logged h entriesPerDay day w c :
  logFile w = Some c ->
  for_loop entriesPerDay 0
    (fun entry =>
       let logEntry := logLine h entriesPerDay day entry +:+ String Js.LF "" in
       writeLog logEntry) w
    = (logged (map (logLine h entriesPerDay day) (seq 0 entriesPerDay)) w,
       Resolved tt).
Proof.
  intros Hw. cbv zeta.
  rewrite (for_loop_logged
             (fun entry =>
                writeLog (logLine h entriesPerDay day entry +:+ String Js.LF ""))
             (fun entry => [logLine h entriesPerDay day entry])
             (fun i v _ _ => writeLog_logged _ v)
             entriesPerDay 0%nat w c Hw).
  now rewrite flat_map_single.
Qed.

Lemma generateSampleData_spec h numberOfDays entriesPerDay w :
  snd (generateSampleData h numberOfDays entriesPerDay w) = Resolved tt /\
  logFile (fst (generateSampleData h numberOfDays entriesPerDay w))
    = Some (joinLines (sampleLines h numberOfDays entriesPerDay)) /\
  length (sampleLines h numberOfDays entriesPerDay)
    = (numberOfDays * entriesPerDay)%nat /\
  outputDir (fst (generateSampleData h numberOfDays entriesPerDay w))
    = outputDir w /\
  outputs (fst (generateSampleData h numberOfDays entriesPerDay w))
    = outputs w.
Proof.
  unfold generateSampleData, bind, createLogStream.
  rewrite (for_loop_logged
             (fun day =>
                for_loop entriesPerDay 0 (fun entry =>
                  writeLog (logLine h entriesPerDay day entry +:+ String Js.LF "")))
             (fun day => map (logLine h entriesPerDay day) (seq 0 entriesPerDay))
             (day_logged h entriesPerDay)
             numberOfDays 0%nat
             (set_logFile (Some "") (emit (EvOpenWrite logFilePath) w))
             "" eq_refl).
  cbn. repeat split. apply sampleLines_length.
Qed.

(** Whatever the log file was, after the generation it holds the entries of
    [numberOfDays] days, [entriesPerDay] a day, day after day, each on a
    line of its own; the output directory is as it was. *)
Theorem generateSampleData_writes h numberOfDays entriesPerDay w :
  snd (generateSampleData h numberOfDays entriesPerDay w) = Resolved tt /\
  logFile (fst (generateSampleData h numberOfDays entriesPerDay w))
    = Some (joinLines (sampleLines h numberOfDays entriesPerDay)) /\
  length (sampleLines h numberOfDays entriesPerDay)
    = (numberOfDays * entriesPerDay)%nat /\
  outputDir (fst (generateSampleData h numberOfDays entriesPerDay w))
    = outputDir w /\
  outputs (fst (generateSampleData h numberOfDays entriesPerDay w))
    = outputs w.
Proof. apply generateSampleData_spec. Qed.

Lemma clean_app (a b : string) : clean a -> clean b -> clean (a +:+ b).
Proof.
  induction a as [|c a IH]; intros Ha Hb; [exact Hb|].
  rewrite append_cons. apply clean_cons in Ha. apply clean_cons.
  destruct Ha as (H1 & H2 & H3). auto.
Qed.

Lemma padStart2_ok n :
  (n < 60)%nat ->
  String.length (padStart2 (toString n)) = 2%nat /\
  clean (padStart2 (toString n)).
Proof.
  intros Hn.
  do 60 (destruct n as [|n]; [split; [reflexivity|split; reflexivity]|]).
  lia.
Qed.

Lemma logLevel_ok i :
  In (arrayAt logLevels (i mod length logLevels)) logLevels /\
  clean (arrayAt logLevels (i mod length logLevels)).
Proof.
  pose proof (Nat.mod_upper_bound i (length logLevels)) as Hi.
  cbn [length logLevels] in *.
  destruct (i mod 4)%nat as [|[|[|[|k]]]]; [| | | |lia];
    (split; [cbn; tauto|split; reflexivity]).
Qed.

Lemma message_ok i :
  In (arrayAt messages (i mod length messages)) messages /\
  clean (arrayAt messages (i mod length messages)).
Proof.
  pose proof (Nat.mod_upper_bound i (length messages)) as Hi.
  cbn [length messages] in *.
  destruct (i mod 5)%nat as [|[|[|[|[|k]]]]]; [| | | | |lia];
    (split; [cbn; tauto|split; reflexivity]).
Qed.

Lemma padStart2_floor x n :
  (0 < n <= 60)%nat ->
  String.length (padStart2 (toString (x mod n))) = 2%nat /\
  clean (padStart2 (toString (x mod n))).
Proof.
  intros Hn. apply padStart2_ok.
  pose proof (Nat.mod_upper_bound x n). lia.
Qed.

(** Every generated entry reads [<date> HH:MM:SS <level> <message>]: the
    three fields of the time have two characters each, and level and message
    are entries of their tables, never "undefined". *)
Theorem logLine_shape h entriesPerDay day entry :
  exists hh mm ss level message,
    logLine h entriesPerDay day entry
      = isoDate h day +:+ " " +:+ hh +:+ ":" +:+ mm +:+ ":" +:+ ss
        +:+ " " +:+ level +:+ " " +:+ message /\
    String.length hh = 2%nat /\ String.length mm = 2%nat /\
    String.length ss = 2%nat /\
    In level logLevels /\ In message messages.
Proof.
  unfold logLine, floorRandom. cbv zeta.
  set (k := (5 * (day * entriesPerDay + entry))%nat).
  exists (padStart2 (toString (random h k mod 24))),
    (padStart2 (toString (random h (k + 1) mod 60))),
    (padStart2 (toString (random h (k + 2) mod 60))),
    (arrayAt logLevels (random h (k + 3) mod length logLevels)),
    (arrayAt messages (random h (k + 4) mod length messages)).
  split.
  - rewrite !append_assoc. reflexivity.
  - split; [apply padStart2_floor; lia|].
    split; [apply padStart2_floor; lia|].
    split; [apply padStart2_floor; lia|].
    split; [apply logLevel_ok|apply message_ok].
Qed.

Lemma logLine_clean h entriesPerDay day entry :
  clean (isoDate h day) -> clean (logLine h entriesPerDay day entry).
Proof.
  intros Hday. unfold logLine, floorRandom. cbv zeta.
  repeat apply clean_app;
    try assumption;
    try (split; reflexivity);
    try (apply padStart2_floor; lia);
    try apply logLevel_ok; try apply message_ok.
Qed.

Lemma sampleLines_clean h numberOfDays entriesPerDay :
  (forall day, (day < numberOfDays)%nat -> clean (isoDate h day)) ->
  Forall clean (sampleLines h numberOfDays entriesPerDay).
Proof.
  intros Hdays. unfold sampleLines.
  apply List.Forall_flat_map, List.Forall_forall. intros day Hday.
  apply in_seq in Hday.
  apply List.Forall_map, List.Forall_forall. intros entry _.
  apply logLine_clean, Hdays. lia.
Qed.

(** When the host's dates hold no line break, [readline] reads the generated
    file back as the entries that were written, [numberOfDays *
    entriesPerDay] of them. *)
Theorem generated_file_lines h numberOfDays entriesPerDay w :
  (forall day, (day < numberOfDays)%nat -> clean (isoDate h day)) ->
  exists content,
    logFile (fst (generateSampleData h numberOfDays entriesPerDay w))
      = Some content /\
    rl_lines "" content = sampleLines h numberOfDays entriesPerDay /\
    length (rl_lines "" content) = (numberOfDays * entriesPerDay)%nat.
Proof.
  intros Hdays.
  destruct (generateSampleData_spec h numberOfDays entriesPerDay w)
    as (_ & Hlog & Hlen & _).
  exists (joinLines (sampleLines h numberOfDays entriesPerDay)).
  split; [exact Hlog|].
  rewrite rl_lines_joinLines by now apply sampleLines_clean.
  split; [reflexivity|exact Hlen].
Qed.

Lemma generated_file_lines_witness :
  (forall day, (day < 2)%nat -> clean (isoDate december day)) /\
  exists content,
    logFile (fst (generateSampleData december 2 3 (initial None)))
      = Some content /\
    rl_lines "" content = sampleLines december 2 3 /\
    length (rl_lines "" content) = (2 * 3)%nat.
Proof.
  assert (Hdays : forall day, (day < 2)%nat -> clean (isoDate december day)).
  { intros day Hday.
    destruct day as [|[|day]]; [split; reflexivity|split; reflexivity|lia]. }
  split; [exact Hdays|].
  apply (generated_file_lines december 2 3 (initial None)). exact Hdays.
Defined.

Lemma terminated_snoc (a : string) : terminated (a +:+ String Js.LF "") = true.
Proof.
  induction a as [|c a IH]; [reflexivity|].
  rewrite append_cons. cbn [terminated].
  destruct (a +:+ String Js.LF "") eqn:E; [now destruct a|exact IH].
Qed.

Lemma terminated_app (a b : string) :
  b <> "" -> terminated (a +:+ b) = terminated b.
Proof.
  intros Hb. induction a as [|c a IH]; [reflexivity|].
  rewrite append_cons. cbn [terminated].
  destruct (a +:+ b) eqn:E; [|exact IH].
  destruct a; [contradiction|discriminate].
Qed.

(** A file written line by line ends with a newline. *)
Lemma terminated_joinLines lines : terminated (joinLines lines) = true.
Proof.
  induction lines as [|line lines IH]; [reflexivity|].
  cbn [joinLines].
  destruct (joinLines lines) eqn:E.
  - rewrite append_empty_r. apply terminated_snoc.
  - rewrite terminated_app by discriminate. exact IH.
Qed.

(** On a file just generated, whatever the host drew, the extraction for a
    well-formed date returns a summary. *)
Theorem generated_file_extracts h numberOfDays entriesPerDay
    targetDate startTime endTime w :
  validDate targetDate = true ->
  exists w' s,
    extractLogs targetDate startTime endTime
      (fst (generateSampleData h numberOfDays entriesPerDay w))
      = (w', Resolved s).
Proof.
  intros Hvalid.
  destruct (generateSampleData_spec h numberOfDays entriesPerDay w)
    as (_ & Hlog & _).
  apply (extractLogs_terminated _ _ _ _ _ Hvalid Hlog).
  apply terminated_joinLines.
Qed.

Lemma generated_file_extracts_witness :
  validDate "2024-12-02" = true /\
  exists w' s,
    extractLogs "2024-12-02" 0 1
      (fst (generateSampleData december 2 3 (initial None)))
      = (w', Resolved s).
Proof.
  split; [reflexivity|].
  apply (generated_file_extracts december 2 3 "2024-12-02" 0 1 (initial None)).
  reflexivity.
Defined.

(** ** main *)

Lemma readDate_not_rejected content position e :
  0 <= position -> readDate (Some content) position <> Rejected e.
Proof.
  intros Hpos. unfold readDate.
  destruct (position <? 0) eqn:E; [apply Z.ltb_lt in E; lia|].
  destruct (Js.indexOf _ _); discriminate.
Qed.

Lemma search_loop_not_rejected targetDate fuel :
  forall left right startPosition w content e,
    logFile w = Some content ->
    0 <= left ->
    snd (search_loop targetDate fuel left right startPosition w) <> Rejected e.
Proof.
  induction fuel as [|fuel IH]; intros left right s w content e Hlog Hleft;
    simpl; destruct (left <=? right) eqn:E;
    try (unfold ret; simpl; discriminate).
  apply Z.leb_le in E. read_date.
  pose proof (midpoint_bounds left right E) as Hmid.
  destruct (readDate (logFile w) (midpoint left right)) as [d| | |] eqn:Er;
    try (simpl; discriminate).
  - destruct (search_step targetDate (midpoint left right) left right s d)
      as [[l r] s'] eqn:Es.
    apply search_step_shrinks in Es; [|assumption].
    apply (IH l r s' _ content); [exact Hlog|lia].
  - exfalso. rewrite Hlog in Er.
    revert Er. apply readDate_not_rejected. lia.
Qed.

Lemma backtrack_loop_not_rejected targetDate fuel :
  forall startPosition w content e,
    logFile w = Some content ->
    snd (backtrack_loop targetDate fuel startPosition w) <> Rejected e.
Proof.
  induction fuel as [|fuel IH]; intros s w content e Hlog;
    simpl; destruct (0 <? s) eqn:E;
    try (unfold ret; simpl; discriminate).
  apply Z.ltb_lt in E. read_date.
  destruct (readDate (logFile w) (s - 1)) as [d| | |] eqn:Er;
    try (simpl; discriminate).
  - destruct (negb (Js.eqb d targetDate)); [unfold ret; simpl; discriminate|].
    apply (IH _ _ content). exact Hlog.
  - exfalso. rewrite Hlog in Er.
    revert Er. apply readDate_not_rejected. lia.
Qed.

Lemma locate_not_rejected targetDate content e :
  locate targetDate content <> Rejected e.
Proof.
  unfold locate, binarySearch, bind.
  destruct (search_loop targetDate (Z.to_nat (fileSize (probing content))) 0
              (fileSize (probing content) - 1) (-1) (probing content))
    as [w1 r1] eqn:E1.
  assert (Hlog : logFile w1 = Some content).
  { change w1 with (fst (w1, r1)). rewrite <- E1.
    rewrite probes_only_logFile by apply probes_only_search_loop. reflexivity. }
  destruct r1 as [s| e1 | |]; try (simpl; discriminate).
  - destruct (negb (s =? -1)); [|unfold ret; simpl; discriminate].
    now apply (backtrack_loop_not_rejected _ _ _ _ content).
  - exfalso.
    apply (search_loop_not_rejected targetDate
             (Z.to_nat (fileSize (probing content))) 0
             (fileSize (probing content) - 1) (-1) (probing content) content e1);
      [reflexivity|lia|].
    now rewrite E1.
Qed.

(** Over an existing log file the extraction for a well-formed date is never
    rejected and never cut short: it returns or it never settles. *)
Lemma extractLogs_settles targetDate startTime endTime w content :
  validDate targetDate = true ->
  logFile w = Some content ->
  (exists s, snd (extractLogs targetDate startTime endTime w) = Resolved s) \/
  snd (extractLogs targetDate startTime endTime w) = Pending.
Proof.
  intros Hvalid Hlog.
  destruct (extractLogs_spec targetDate startTime endTime w content Hvalid Hlog)
    as (w' & probes & tail & Hrun & _).
  rewrite Hrun. simpl. unfold extraction.
  pose proof (locate_fuel targetDate content) as Hfuel.
  destruct (locate targetDate content) as [p| e | |] eqn:Hloc.
  - left. destruct (p =? -1); eauto.
  - exfalso. exact (locate_not_rejected _ _ _ Hloc).
  - now right.
  - contradiction.
Qed.

(** Over an existing log file the extraction for a well-formed date is never
    rejected: it returns a summary or, when a read finds no newline, never
    settles. *)
Theorem extractLogs_never_rejected targetDate startTime endTime w content :
  validDate targetDate = true ->
  logFile w = Some content ->
  (exists s, snd (extractLogs targetDate startTime endTime w) = Resolved s) \/
  snd (extractLogs targetDate startTime endTime w) = Pending.
Proof. apply extractLogs_settles. Qed.

Lemma extractLogs_never_rejected_witness :
  validDate "2024-12-02" = true /\
  logFile (initial (Some unterminated)) = Some unterminated /\
  ((exists s, snd (extractLogs "2024-12-02" 0 1 (initial (Some unterminated)))
              = Resolved s) \/
   snd (extractLogs "2024-12-02" 0 1 (initial (Some unterminated))) = Pending).
Proof.
  split; [reflexivity|]. split; [reflexivity|].
  apply (extractLogs_never_rejected "2024-12-02" 0 1
           (initial (Some unterminated)) unterminated); reflexivity.
Defined.

(** A run with a non-empty argument: the log file is there when the
    extraction starts, generated if it was missing, and the run ends as the
    extraction does. *)
Lemma main_run h targetDate startTime endTime w :
  targetDate <> "" ->
  exists w1 content,
    logFile w1 = Some content /\
    content = match logFile w with
              | Some c => c
              | None => joinLines (sampleLines h 10 1000)
              end /\
    outputs w1 = outputs w /\ outputDir w1 = outputDir w /\
    main h (Some targetDate) startTime endTime w
      = (fst (extractLogs targetDate startTime endTime w1),
         match snd (extractLogs targetDate startTime endTime w1) with
         | Resolved _ => Returned
         | Rejected _ => Exit 1
         | Pending => NeverSettles
         | OutOfFuel => Cut
         end).
Proof.
  intros Ht. unfold main, Js.eqb. apply String.eqb_neq in Ht. rewrite Ht.
  change (logFile (set_fileSize 0 w)) with (logFile w).
  destruct (logFile w) as [c|] eqn:Hw.
  - exists (set_fileSize 0 w), c.
    repeat split; try assumption.
    now destruct (extractLogs targetDate startTime endTime (set_fileSize 0 w))
      as [w2 [s|e| |]].
  - destruct (generateSampleData_spec h 10 1000 (set_fileSize 0 w))
      as (Hres & Hlog & _ & Hdir & Hout).
    destruct (generateSampleData h 10 1000 (set_fileSize 0 w)) as [w1 g].
    cbn [fst snd] in Hres, Hlog, Hdir, Hout. subst g.
    exists w1, (joinLines (sampleLines h 10 1000)).
    repeat split; try assumption.
    now destruct (extractLogs targetDate startTime endTime w1)
      as [w2 [s|e| |]].
Qed.

(** The program ends with [process.exit] exactly when its argument is
    missing, empty or not of the shape of a date, and then with status 1.
    Otherwise [main] returns or, when a read finds no newline, never does. *)
Theorem main_exit_status h argument startTime endTime w :
  (snd (main h argument startTime endTime w) = Exit 1 <->
   argument = None \/
   exists targetDate, argument = Some targetDate /\ validDate targetDate = false)
  /\
  (snd (main h argument startTime endTime w) = Exit 1 \/
   snd (main h argument startTime endTime w) = Returned \/
   snd (main h argument startTime endTime w) = NeverSettles).
Proof.
  destruct argument as [t|]; [|cbn; split; [split|]; auto].
  destruct (String.eqb t "") eqn:Et.
  { apply String.eqb_eq in Et. subst t. cbn. split; [split|]; eauto. }
  apply String.eqb_neq in Et.
  destruct (main_run h t startTime endTime w Et)
    as (w1 & content & Hlog & _ & _ & _ & Hmain).
  rewrite Hmain. cbn [snd].
  destruct (validDate t) eqn:Hvalid.
  - destruct (extractLogs_settles t startTime endTime w1 content Hvalid Hlog)
      as [[s Hs]|Hs]; rewrite Hs.
    + split; [split|]; auto.
      * discriminate.
      * intros [H|(t' & [= <-] & H)]; congruence.
    + split; [split|]; auto.
      * discriminate.
      * intros [H|(t' & [= <-] & H)]; congruence.
  - rewrite extractLogs_invalid by assumption. cbn [snd].
    split; [split|]; eauto.
Qed.

Lemma main_exit_status_witness :
  (snd (main december (Some "2024-13-40") 0 1 (initial (Some centred))) = Exit 1 <->
   Some "2024-13-40" = None \/
   exists targetDate,
     Some "2024-13-40" = Some targetDate /\ validDate targetDate = false)
  /\
  (snd (main december (Some "2024-13-40") 0 1 (initial (Some centred))) = Exit 1 \/
   snd (main december (Some "2024-13-40") 0 1 (initial (Some centred))) = Returned \/
   snd (main december (Some "2024-13-40") 0 1 (initial (Some centred)))
     = NeverSettles).
Proof.
  apply (main_exit_status december (Some "2024-13-40") 0 1 (initial (Some centred))).
Defined.

(** A run whose argument is not of the shape of a date ends with status 1
    and leaves the output directory alone; but when the log file was
    missing, the sample file of 10 days of 1000 entries has been generated
    by then. *)
Theorem main_malformed_date h targetDate startTime endTime w :
  targetDate <> "" ->
  validDate targetDate = false ->
  snd (main h (Some targetDate) startTime endTime w) = Exit 1 /\
  logFile (fst (main h (Some targetDate) startTime endTime w))
    = Some (match logFile w with
            | Some c => c
            | None => joinLines (sampleLines h 10 1000)
            end) /\
  outputs (fst (main h (Some targetDate) startTime endTime w)) = outputs w /\
  outputDir (fst (main h (Some targetDate) startTime endTime w)) = outputDir w.
Proof.
  intros Ht Hvalid.
  destruct (main_run h targetDate startTime endTime w Ht)
    as (w1 & content & Hlog & Hcontent & Hout & Hdir & Hmain).
  rewrite Hmain, extractLogs_invalid by assumption.
  cbn [fst snd]. subst content. auto.
Qed.

Lemma main_malformed_date_witness :
  "20241201" <> "" /\
  validDate "20241201" = false /\
  snd (main december (Some "20241201") 0 1 (initial None)) = Exit 1 /\
  logFile (fst (main december (Some "20241201") 0 1 (initial None)))
    = Some (match logFile (initial None) with
            | Some c => c
            | None => joinLines (sampleLines december 10 1000)
            end) /\
  outputs (fst (main december (Some "20241201") 0 1 (initial None)))
    = outputs (initial None) /\
  outputDir (fst (main december (Some "20241201") 0 1 (initial None)))
    = outputDir (initial None).
Proof.
  split; [discriminate|]. split; [reflexivity|].
  apply (main_malformed_date december "20241201" 0 1 (initial None));
    [discriminate|reflexivity].
Defined.

(** A run with a well-formed date returns when the log file is missing (it
    is generated) or ends with a newline. *)
Theorem main_returns h targetDate startTime endTime w :
  validDate targetDate = true ->
  match logFile w with
  | Some content => terminated content = true
  | None => True
  end ->
  snd (main h (Some targetDate) startTime endTime w) = Returned.
Proof.
  intros Hvalid Hterm.
  assert (Ht : targetDate <> "") by (intros ->; discriminate Hvalid).
  destruct (main_run h targetDate startTime endTime w Ht)
    as (w1 & content & Hlog & Hcontent & _ & _ & Hmain).
  rewrite Hmain. cbn [snd].
  assert (Hcomplete : terminated content = true).
  { subst content. destruct (logFile w); [exact Hterm|].
    apply terminated_joinLines. }
  destruct (extractLogs_terminated targetDate startTime endTime w1 content
              Hvalid Hlog Hcomplete) as (w' & s & Hrun).
  now rewrite Hrun.
Qed.

Lemma main_returns_witness :
  validDate "2024-12-02" = true /\
  match logFile (initial None) with
  | Some content => terminated content = true
  | None => True
  end /\
  snd (main december (Some "2024-12-02") 0 1 (initial None)) = Returned.
Proof.
  split; [reflexivity|]. split; [exact I|].
  apply (main_returns december "2024-12-02" 0 1 (initial None));
    [reflexivity|exact I].
Defined.

(** ** When the extraction is right *)

Lemma matching_run targetDate run after :
  Forall (fun line => Js.take 10 line = targetDate) run ->
  Forall (fun line => Js.take 10 line <> targetDate) after ->
  matching targetDate (run ++ after) = run.
Proof.
  intros Hrun Hafter.
  induction Hrun as [|line run Hline Hrun IH]; cbn [app matching].
  - destruct Hafter as [|line after Hline Hafter]; [reflexivity|].
    cbn [matching]. apply String.eqb_neq in Hline.
    unfold Js.eqb. now rewrite Hline.
  - apply String.eqb_eq in Hline. unfold Js.eqb in *. now rewrite Hline, IH.
Qed.

Lemma filter_date_none targetDate lines :
  Forall (fun line => Js.take 10 line <> targetDate) lines ->
  List.filter (fun line => Js.eqb (Js.take 10 line) targetDate) lines = [].
Proof.
  induction 1 as [|line lines Hline Hlines IH]; [reflexivity|].
  cbn [List.filter]. apply String.eqb_neq in Hline.
  unfold Js.eqb in *. now rewrite Hline.
Qed.

Lemma filter_date_all targetDate lines :
  Forall (fun line => Js.take 10 line = targetDate) lines ->
  List.filter (fun line => Js.eqb (Js.take 10 line) targetDate) lines = lines.
Proof.
  induction 1 as [|line lines Hline Hlines IH]; [reflexivity|].
  cbn [List.filter]. apply String.eqb_eq in Hline.
  unfold Js.eqb in *. now rewrite Hline, IH.
Qed.

(** In an ASCII file whose lines of the target date stand together, an
    extraction whose search returns the offset of the first of them writes
    exactly the lines of that date, as a linear scan of the file finds them,
    and reports their number. *)
Theorem extractLogs_from_run_start targetDate startTime endTime w
    (before run after : list string) :
  validDate targetDate = true ->
  ascii_only (joinLines (before ++ run ++ after)) = true ->
  Forall clean (before ++ run ++ after) ->
  Forall (fun line => Js.take 10 line <> targetDate) before ->
  Forall (fun line => Js.take 10 line = targetDate) run ->
  Forall (fun line => Js.take 10 line <> targetDate) after ->
  logFile w = Some (joinLines (before ++ run ++ after)) ->
  locate targetDate (joinLines (before ++ run ++ after))
    = Resolved (Z.of_nat (String.length (joinLines before))) ->
  linesOfDate targetDate (joinLines (before ++ run ++ after)) = run /\
  snd (extractLogs targetDate startTime endTime w)
    = Resolved (mkSummary
                  (Z.of_nat (String.length (joinLines (before ++ run ++ after))))
                  (Z.of_nat (length run)) (endTime - startTime)) /\
  outputs (fst (extractLogs targetDate startTime endTime w))
    !! outputName targetDate = Some (joinLines run).
Proof.
  intros Hvalid _ Hclean Hbefore Hrun Hafter Hlog Hloc.
  split.
  - unfold linesOfDate. rewrite rl_lines_joinLines by assumption.
    rewrite !List.filter_app, (filter_date_none _ before),
      (filter_date_none _ after), (filter_date_all _ run) by assumption.
    now rewrite app_nil_r.
  - destruct (extractLogs_spec targetDate startTime endTime w _ Hvalid Hlog)
      as (w' & probes & tail & Hspec & _ & _ & Hout & _).
    rewrite Hspec. cbn [fst snd]. rewrite Hout.
    unfold extraction, written. rewrite Hloc.
    destruct (Z.of_nat (String.length (joinLines before)) =? -1) eqn:E;
      [apply Z.eqb_eq in E; lia|].
    assert (Hscan : scanned targetDate (joinLines (before ++ run ++ after))
                      (Z.of_nat (String.length (joinLines before))) = run).
    { unfold scanned. rewrite Nat2Z.id, joinLines_app, drop_app_length.
      apply Forall_app in Hclean. destruct Hclean as [_ Hclean].
      rewrite rl_lines_joinLines by assumption.
      now apply matching_run. }
    now rewrite Hscan.
Qed.

Lemma extractLogs_from_run_start_witness :
  validDate "2024-12-02" = true /\
  ascii_only (joinLines (["2024-12-01 A"] ++ ["2024-12-02 BC"] ++ [])) = true /\
  logFile (initial (Some centred))
    = Some (joinLines (["2024-12-01 A"] ++ ["2024-12-02 BC"] ++ [])) /\
  locate "2024-12-02" (joinLines (["2024-12-01 A"] ++ ["2024-12-02 BC"] ++ []))
    = Resolved (Z.of_nat (String.length (joinLines ["2024-12-01 A"]))) /\
  linesOfDate "2024-12-02" (joinLines (["2024-12-01 A"] ++ ["2024-12-02 BC"] ++ []))
    = ["2024-12-02 BC"] /\
  snd (extractLogs "2024-12-02" 0 1 (initial (Some centred)))
    = Resolved (mkSummary
                  (Z.of_nat (String.length
                     (joinLines (["2024-12-01 A"] ++ ["2024-12-02 BC"] ++ []))))
                  (Z.of_nat (length ["2024-12-02 BC"])) (1 - 0)) /\
  outputs (fst (extractLogs "2024-12-02" 0 1 (initial (Some centred))))
    !! outputName "2024-12-02" = Some (joinLines ["2024-12-02 BC"]).
Proof.
  split; [reflexivity|]. split; [reflexivity|]. split; [reflexivity|].
  split; [vm_compute; reflexivity|].
  apply (extractLogs_from_run_start "2024-12-02" 0 1 (initial (Some centred))
           ["2024-12-01 A"] ["2024-12-02 BC"] []).
  - reflexivity.
  - reflexivity.
  - repeat constructor.
  - repeat constructor. discriminate.
  - repeat constructor.
  - constructor.
  - reflexivity.
  - vm_compute. reflexivity.
Defined.

(** ** The date check *)

(** The date check accepts exactly the strings of ten characters made of
    four digits, a hyphen, two digits, a hyphen and two digits; whether they
    name a day of the calendar plays no part. *)
Theorem date_check_shape s :
  validDate s = true <->
  exists y1 y2 y3 y4 m1 m2 d1 d2,
    s = String y1 (String y2 (String y3 (String y4 (String "-"
          (String m1 (String m2 (String "-" (String d1 (String d2 ""))))))))) /\
    forallb isDigit [y1; y2; y3; y4; m1; m2; d1; d2] = true.
Proof. apply validDate_shape. Qed.

Lemma date_check_shape_witness :
  validDate "2024-13-40" = true /\
  exists y1 y2 y3 y4 m1 m2 d1 d2,
    "2024-13-40"
      = String y1 (String y2 (String y3 (String y4 (String "-"
          (String m1 (String m2 (String "-" (String d1 (String d2 ""))))))))) /\
    forallb isDigit [y1; y2; y3; y4; m1; m2; d1; d2] = true.
Proof.
  split; [reflexivity|].
  apply (proj1 (date_check_shape "2024-13-40")). reflexivity.
Defined.
